(** * atlasair: the flight-log lifecycle and the pilot ledger of [app.py]

    A shallow embedding of the request handlers of [src/app.py] that touch
    the [Pilot] and [FlightLog] tables, and the properties of the written
    specification checked against them.

    Conventions of the embedding.
    - A Python [str] is a list of Unicode code points.
    - A Python [int] is a [Z]; a Python [float] is an IEEE 754 binary64
      value, [spec_float] at precision 53.
    - A table is a finite map from primary key to row; the row records hold
      the other columns.
    - A request handler is a function from the session cookie, the request
      arguments and the committed database to a response and the database
      after the request.  A handler that raises before [db.session.commit()]
      leaves the database as it was. *)

From Stdlib Require Import ZArith NArith List Bool String Ascii Lia.
From Stdlib Require Import Floats.SpecFloat.
From stdpp Require Import base option list gmap.

Local Open Scope Z_scope.

(** ** Python values *)

Module Py.

(** [str]: a sequence of code points. *)
Definition str := list N.

(** An ASCII literal of the source. *)
Fixpoint lit (s : string) : str :=
  match s with
  | EmptyString => []
  | String c s' => N_of_ascii c :: lit s'
  end.

(** Truthiness of a [str]: the empty string is falsy. *)
Definition truthy (s : str) : bool :=
  match s with [] => false | _ :: _ => true end.

(** The code points [str.strip()] removes: those for which
    [str.isspace] holds (CPython's [_PyUnicode_IsWhitespace]). *)
Definition isspace (c : N) : bool :=
  ((9 <=? c) && (c <=? 13)
   || (28 <=? c) && (c <=? 32)
   || (c =? 133) || (c =? 160) || (c =? 5760)
   || (8192 <=? c) && (c <=? 8202)
   || (c =? 8232) || (c =? 8233) || (c =? 8239) || (c =? 8287)
   || (c =? 12288))%N.

Fixpoint lstrip (s : str) : str :=
  match s with
  | [] => []
  | c :: s' => if isspace c then lstrip s' else s
  end.

Fixpoint rstrip (s : str) : str :=
  match s with
  | [] => []
  | c :: s' =>
      match rstrip s' with
      | [] => if isspace c then [] else [c]
      | r => c :: r
      end
  end.

(** [s.strip()] *)
Definition strip (s : str) : str := rstrip (lstrip s).

(** [s.split(sep)] for a one-character separator: every occurrence of
    [sep] cuts, and the empty string gives one empty field. *)
Fixpoint split (sep : N) (s : str) : list str :=
  match s with
  | [] => [[]]
  | c :: s' =>
      if (c =? sep)%N then [] :: split sep s'
      else match split sep s' with
           | [] => [[c]]
           | w :: ws => (c :: w) :: ws
           end
  end.

(** [sep.join(l)] *)
Fixpoint join (sep : str) (l : list str) : str :=
  match l with
  | [] => []
  | [x] => x
  | x :: l' => x ++ sep ++ join sep l'
  end.

(** [s.startswith(p)] *)
Fixpoint startswith (s p : str) : bool :=
  match p, s with
  | [], _ => true
  | _ :: _, [] => false
  | a :: p', b :: s' => (a =? b)%N && startswith s' p'
  end.

(** [len(s)] *)
Definition len (s : str) : Z := Z.of_nat (length s).

(** [x in l] for a list of strings. *)
Definition contains (l : list str) (x : str) : bool := bool_decide (x ∈ l).

(** *** Numbers *)

Definition float := spec_float.

(** The integer [a] as a binary value with exponent 0, exact whatever its
    size: the operand of [truediv]. *)
Definition of_int (a : Z) : float :=
  match a with
  | Z0 => S754_zero false
  | Zpos p => S754_finite false p 0
  | Zneg p => S754_finite true p 0
  end.

(** [a / b] on two [int]s: the quotient rounded to the nearest binary64
    value, ties to even.  [None] stands for the exception Python raises:
    [ZeroDivisionError] when [b] is zero, [OverflowError] when the
    quotient is too large for a float. *)
Definition truediv (a b : Z) : option float :=
  if b =? 0 then None
  else match SFdiv 53 1024 (of_int a) (of_int b) with
       | S754_infinity _ | S754_nan => None
       | q => Some q
       end.

(** [int(x)] on a finite float: truncation toward zero. *)
Definition int (x : float) : option Z :=
  match x with
  | S754_zero _ => Some 0
  | S754_finite s m e =>
      let v := match e with
               | Zneg k => Z.shiftr (Zpos m) (Zpos k)
               | _ => Z.shiftl (Zpos m) e
               end in
      Some (if s then - v else v)
  | S754_infinity _ | S754_nan => None
  end.

End Py.

(** ** The tables *)

(** [datetime]: a point in time, as a count of seconds. *)
Definition datetime := Z.

(** A row of [Pilot]; the primary key [id] is the key of the table. *)
Module Pilot.

Record t := mk {
  username : Py.str;
  password_hash : Py.str;
  name : Py.str;
  callsign : Py.str;
  rank : Py.str;
  balance : Z;
  hours : Z;
  completed_flights : Z;
  aircraft_owned : Py.str;
  cargo_delivered : Z;
  status : Py.str;
  created_at : datetime
}.

Definition set_balance (v : Z) (p : t) : t :=
  mk (username p) (password_hash p) (name p) (callsign p) (rank p) v
     (hours p) (completed_flights p) (aircraft_owned p) (cargo_delivered p)
     (status p) (created_at p).

Definition set_hours (v : Z) (p : t) : t :=
  mk (username p) (password_hash p) (name p) (callsign p) (rank p)
     (balance p) v (completed_flights p) (aircraft_owned p)
     (cargo_delivered p) (status p) (created_at p).

Definition set_completed_flights (v : Z) (p : t) : t :=
  mk (username p) (password_hash p) (name p) (callsign p) (rank p)
     (balance p) (hours p) v (aircraft_owned p) (cargo_delivered p)
     (status p) (created_at p).

Definition set_aircraft_owned (v : Py.str) (p : t) : t :=
  mk (username p) (password_hash p) (name p) (callsign p) (rank p)
     (balance p) (hours p) (completed_flights p) v (cargo_delivered p)
     (status p) (created_at p).

Definition set_cargo_delivered (v : Z) (p : t) : t :=
  mk (username p) (password_hash p) (name p) (callsign p) (rank p)
     (balance p) (hours p) (completed_flights p) (aircraft_owned p) v
     (status p) (created_at p).



(** [Pilot.get_aircraft_list] *)
Definition get_aircraft_list (self : t) : list Py.str :=
  if Py.truthy (aircraft_owned self) then
    omap (fun item => let s := Py.strip item in
                      if Py.truthy s then Some s else None)
         (Py.split 44 (aircraft_owned self))
  else [].

(** [Pilot.add_aircraft] *)
Definition add_aircraft (aircraft_id : Py.str) (self : t) : t :=
  let current_aircraft := get_aircraft_list self in
  if negb (Py.contains current_aircraft aircraft_id) then
    set_aircraft_owned
      (Py.join (Py.lit ", ") (current_aircraft ++ [aircraft_id])) self
  else self.

End Pilot.

(** The three values the code writes to [FlightLog.status]:
    ['In Progress'], ['Paused'], ['Completed']. *)
Inductive flight_status := InProgress | Paused | Completed.

#[global] Instance flight_status_eq_dec : EqDecision flight_status.
Proof. solve_decision. Defined.

(** A row of [FlightLog]; the primary key [id] is the key of the table. *)
Module FlightLog.

Record t := mk {
  pilot_id : Z;
  flight_number : Py.str;
  aircraft_type : Py.str;
  departure_airport : Py.str;
  arrival_airport : Py.str;
  cargo_type : Py.str;
  departure_time : datetime;
  flight_duration : Z;
  status : flight_status;
  created_at : datetime;
  completed_at : option datetime
}.

Definition set_status (v : flight_status) (l : t) : t :=
  mk (pilot_id l) (flight_number l) (aircraft_type l) (departure_airport l)
     (arrival_airport l) (cargo_type l) (departure_time l)
     (flight_duration l) v (created_at l) (completed_at l).

Definition set_flight_duration (v : Z) (l : t) : t :=
  mk (pilot_id l) (flight_number l) (aircraft_type l) (departure_airport l)
     (arrival_airport l) (cargo_type l) (departure_time l)
     v (status l) (created_at l) (completed_at l).

Definition set_completed_at (v : option datetime) (l : t) : t :=
  mk (pilot_id l) (flight_number l) (aircraft_type l) (departure_airport l)
     (arrival_airport l) (cargo_type l) (departure_time l)
     (flight_duration l) (status l) (created_at l) v.

End FlightLog.

(** The committed database. *)
Record DB := mkDB {
  pilots : gmap Z Pilot.t;
  flight_logs : gmap Z FlightLog.t
}.

Definition put_pilot (k : Z) (p : Pilot.t) (db : DB) : DB :=
  mkDB (<[k := p]> (pilots db)) (flight_logs db).

Definition put_flight_log (k : Z) (l : FlightLog.t) (db : DB) : DB :=
  mkDB (pilots db) (<[k := l]> (flight_logs db)).

(** The key the database gives a new row: one more than the largest key
    in the table. *)
Definition next_id {A} (m : gmap Z A) : Z :=
  1 + foldr Z.max 0 (fst <$> map_to_list m).

(** ** What a commit can store *)

(** An [Integer] column of the default database, SQLite, holds a signed
    64-bit value.  Binding a Python [int] outside that range raises
    [OverflowError]: [db.session.commit()] fails, the request is answered
    with 500 and nothing is stored. *)
Definition fits_column (z : Z) : bool := (- 2 ^ 63 <=? z) && (z <? 2 ^ 63).

(** The integer columns of a pilot row that the handlers assign. *)
Definition pilot_fits (p : Pilot.t) : bool :=
  fits_column (Pilot.balance p) && fits_column (Pilot.hours p)
  && fits_column (Pilot.completed_flights p)
  && fits_column (Pilot.cargo_delivered p).

(** ** Session *)

(** The session cookie: [session['pilot_id']], when the key is there. *)
Definition session := option Z.

(** [clear_invalid_sessions], run before every request. *)
Definition clear_invalid_sessions (db : DB) (s : session) : session :=
  match s with
  | Some pilot_id =>
      match pilots db !! pilot_id with
      | Some _ => s
      | None => None
      end
  | None => None
  end.

(** ** The shop catalog *)

(** An entry of [SHOP_ITEMS]; the display-only keys (description, range,
    cruise, mtow, payload) are left out. *)
Record shop_item := mk_item {
  item_id : Py.str;
  item_name : Py.str;
  item_price : Z;
  item_category : Py.str
}.

#[global] Instance shop_item_eq_dec : EqDecision shop_item.
Proof. solve_decision. Defined.

Definition SHOP_ITEMS : list (Py.str * list shop_item) :=
  [ (Py.lit "aircraft",
     [ mk_item (Py.lit "boeing_767") (Py.lit "Boeing 767-300F")
         25000 (Py.lit "Aircraft Access");
       mk_item (Py.lit "boeing_777") (Py.lit "Boeing 777F")
         35000 (Py.lit "Aircraft Access");
       mk_item (Py.lit "airbus_a330") (Py.lit "Airbus A330-200F")
         32000 (Py.lit "Aircraft Access");
       mk_item (Py.lit "boeing_747") (Py.lit "Boeing 747-8F")
         45000 (Py.lit "Aircraft Access") ]);
    (Py.lit "roles",
     [ mk_item (Py.lit "first_officer") (Py.lit "First Officer Certification")
         5000 (Py.lit "Role Upgrade");
       mk_item (Py.lit "captain") (Py.lit "Captain Certification")
         12000 (Py.lit "Role Upgrade");
       mk_item (Py.lit "check_airman") (Py.lit "Check Airman Certification")
         20000 (Py.lit "Role Upgrade") ]);
    (Py.lit "missions",
     [ mk_item (Py.lit "cargo_express") (Py.lit "Express Cargo Mission")
         2500 (Py.lit "Mission");
       mk_item (Py.lit "international_freight")
         (Py.lit "International Freight Route") 4000 (Py.lit "Mission");
       mk_item (Py.lit "emergency_medical")
         (Py.lit "Emergency Medical Transport") 6000 (Py.lit "Mission") ]) ].

(** The inner loop of [purchase]: the first item of a category with the
    given id. *)
Fixpoint find_in_category (id : Py.str) (category : list shop_item)
  : option shop_item :=
  match category with
  | [] => None
  | shop_item :: rest =>
      if bool_decide (item_id shop_item = id) then Some shop_item
      else find_in_category id rest
  end.

(** The outer loop of [purchase], over [SHOP_ITEMS.values()]. *)
Fixpoint find_item (id : Py.str) (items : list (Py.str * list shop_item))
  : option shop_item :=
  match items with
  | [] => None
  | (_, category) :: rest =>
      match find_in_category id category with
      | Some item => Some item
      | None => find_item id rest
      end
  end.

(** ** Responses *)

Inductive endpoint :=
  | ep_login
  | ep_shop
  | ep_add_flight_log
  | ep_flight_tracker (log_id : Z)
  | ep_flight_logs.

(** The messages the handlers flash, with the category they are flashed
    under in the source. *)
Inductive flash :=
  | ItemNotFound                                  (* 'error' *)
  | AlreadyOwned (name : Py.str)                  (* 'warning' *)
  | InsufficientFunds (price balance : Z)         (* 'error' *)
  | Purchased (name : Py.str) (price : Z)         (* 'success' *)
  | BadFlightNumber                               (* 'error' *)
  | FlightLogCreated                              (* 'success' *)
  | FlightLogError.                               (* 'error' *)

(** The JSON bodies of the flight API.  Of the body of [end_flight] the
    integer fields are kept; ['duration_hours'], a float rounded for
    display, and the message text are left out. *)
Inductive json :=
  | ErrorUnauthorized
  | FlightPaused
  | FlightResumed
  | FlightCompleted (hours_added cargo_added money_earned : Z).

Inductive response :=
  | Redirect (target : endpoint) (flashed : option flash)
  | RenderAddFlightLog (flashed : option flash)
  | Json (code : Z) (body : json)
  | Abort (code : Z).

(** ** Handlers *)

(** [purchase], route [/purchase/<item_id>]. *)
Definition purchase (s : session) (item_id : Py.str) (db : DB)
  : response * DB :=
  match s with
  | None => (Redirect ep_login None, db)
  | Some sp =>
      match find_item item_id SHOP_ITEMS with
      | None => (Redirect ep_shop (Some ItemNotFound), db)
      | Some item =>
          match pilots db !! sp with
          | None => (Abort 500, db)
          | Some pilot =>
              if Py.contains (Pilot.get_aircraft_list pilot) item_id then
                (Redirect ep_shop (Some (AlreadyOwned (item_name item))), db)
              else if Pilot.balance pilot <? item_price item then
                (Redirect ep_shop
                   (Some (InsufficientFunds (item_price item)
                            (Pilot.balance pilot))), db)
              else
                let pilot :=
                  Pilot.set_balance (Pilot.balance pilot - item_price item)
                    pilot in
                let pilot := Pilot.add_aircraft item_id pilot in
                (Redirect ep_shop
                   (Some (Purchased (item_name item) (item_price item))),
                 put_pilot sp pilot db)
          end
      end
  end.

(** [pause_flight], route [POST /api/flight/<int:log_id>/pause]. *)
Definition pause_flight (s : session) (log_id : Z) (db : DB)
  : response * DB :=
  match s with
  | None => (Json 401 ErrorUnauthorized, db)
  | Some sp =>
      match flight_logs db !! log_id with
      | None => (Abort 404, db)
      | Some flight_log =>
          if negb (FlightLog.pilot_id flight_log =? sp) then
            (Json 401 ErrorUnauthorized, db)
          else
            (Json 200 FlightPaused,
             put_flight_log log_id (FlightLog.set_status Paused flight_log) db)
      end
  end.

(** [resume_flight], route [POST /api/flight/<int:log_id>/resume]. *)
Definition resume_flight (s : session) (log_id : Z) (db : DB)
  : response * DB :=
  match s with
  | None => (Json 401 ErrorUnauthorized, db)
  | Some sp =>
      match flight_logs db !! log_id with
      | None => (Abort 404, db)
      | Some flight_log =>
          if negb (FlightLog.pilot_id flight_log =? sp) then
            (Json 401 ErrorUnauthorized, db)
          else
            (Json 200 FlightResumed,
             put_flight_log log_id
               (FlightLog.set_status InProgress flight_log) db)
      end
  end.

(** [int(flight_duration_seconds / 3600)], or [None] when the division
    raises. *)
Definition int_flight_hours (flight_duration_seconds : Z) : option Z :=
  flight_hours ← Py.truediv flight_duration_seconds 3600;
  Py.int flight_hours.

(** [end_flight], route [POST /api/flight/<int:log_id>/end].  [duration]
    is the value of the key ['duration'] of the JSON body, an integer, or
    [None] when the body has no such key.  After the rows are fetched two
    statements can raise: the division, and the commit when the duration
    or one of the new totals does not fit its column.  Either way nothing
    is committed. *)
Definition end_flight (s : session) (log_id : Z) (duration : option Z)
    (now : datetime) (db : DB) : response * DB :=
  match s with
  | None => (Json 401 ErrorUnauthorized, db)
  | Some sp =>
      match flight_logs db !! log_id with
      | None => (Abort 404, db)
      | Some flight_log =>
          match pilots db !! sp with
          | None => (Abort 500, db)
          | Some pilot =>
              if negb (FlightLog.pilot_id flight_log =? sp) then
                (Json 401 ErrorUnauthorized, db)
              else
                let flight_duration_seconds := default 0 duration in
                let flight_log := FlightLog.set_status Completed flight_log in
                let flight_log :=
                  FlightLog.set_flight_duration flight_duration_seconds
                    flight_log in
                let flight_log :=
                  FlightLog.set_completed_at (Some now) flight_log in
                match int_flight_hours flight_duration_seconds with
                | None => (Abort 500, db)
                | Some h =>
                    let pilot :=
                      Pilot.set_hours (Pilot.hours pilot + h) pilot in
                    let pilot :=
                      Pilot.set_completed_flights
                        (Pilot.completed_flights pilot + 1) pilot in
                    let pilot :=
                      Pilot.set_cargo_delivered
                        (Pilot.cargo_delivered pilot + 50) pilot in
                    let pilot :=
                      Pilot.set_balance (Pilot.balance pilot + 50) pilot in
                    if fits_column flight_duration_seconds
                       && pilot_fits pilot
                    then
                      (Json 200 (FlightCompleted h 50 50),
                       put_pilot sp pilot
                         (put_flight_log log_id flight_log db))
                    else (Abort 500, db)
                end
          end
      end
  end.

(** The fields of the form posted to [/add-flight-log]; a field the
    request does not carry is [None]. *)
Record flight_form := mk_form {
  form_flight_number : option Py.str;
  form_aircraft_type : option Py.str;
  form_departure_airport : option Py.str;
  form_arrival_airport : option Py.str;
  form_cargo_type : option Py.str;
  form_departure_time : option Py.str
}.

Inductive method := GET | POST.

(** What the [try] block of [add_flight_log] comes to. *)
Inductive attempt :=
  | Rejected                      (* the flight-number check returned *)
  | Raised                        (* an exception reached [except] *)
  | Created (log : FlightLog.t).  (* the row was committed *)

Section AddFlightLog.

(** [datetime.fromisoformat], [None] when it raises [ValueError]. *)
Variable fromisoformat : Py.str -> option datetime.
(** [str.upper] *)
Variable upper : Py.str -> Py.str.

(** The body of the [try] block.  Each [None] below is an exception
    caught by [except Exception]: [flight_number] missing
    ([AttributeError]), [departure_time] missing or malformed
    ([TypeError], [ValueError]), no pilot row ([AttributeError]), and a
    missing [aircraft_type] or [cargo_type], columns that are not
    nullable ([IntegrityError] at commit). *)
Definition try_add_flight_log (pilot : option (Z * Pilot.t))
    (form : flight_form) (now : datetime) : attempt :=
  let departure_airport :=
    upper (default [] (form_departure_airport form)) in
  let arrival_airport :=
    upper (default [] (form_arrival_airport form)) in
  match form_flight_number form with
  | None => Raised
  | Some flight_number =>
      if negb (Py.startswith flight_number (Py.lit "GTI_"))
         || (Py.len flight_number <? 5)
      then Rejected
      else
        match form_departure_time form ≫= fromisoformat,
              pilot,
              form_aircraft_type form,
              form_cargo_type form with
        | Some departure_time, Some (pilot_id, _),
          Some aircraft_type, Some cargo_type =>
            Created
              (FlightLog.mk pilot_id flight_number aircraft_type
                 departure_airport arrival_airport cargo_type
                 departure_time 0 InProgress now None)
        | _, _, _, _ => Raised
        end
  end.

(** [add_flight_log], route [/add-flight-log]. *)
Definition add_flight_log (s : session) (m : method) (form : flight_form)
    (now : datetime) (db : DB) : response * DB :=
  match s with
  | None => (Redirect ep_login None, db)
  | Some sp =>
      match m with
      | GET => (RenderAddFlightLog None, db)
      | POST =>
          let pilot := (fun p => (sp, p)) <$> pilots db !! sp in
          match try_add_flight_log pilot form now with
          | Rejected =>
              (Redirect ep_add_flight_log (Some BadFlightNumber), db)
          | Raised => (RenderAddFlightLog (Some FlightLogError), db)
          | Created new_log =>
              let new_id := next_id (flight_logs db) in
              (Redirect (ep_flight_tracker new_id) (Some FlightLogCreated),
               put_flight_log new_id new_log db)
          end
      end
  end.

(** ** Requests and runs *)

(** A request of a client: every request carries the client's session
    cookie. *)
Inductive request :=
  | ReqCreate (s : session) (m : method) (form : flight_form)
      (now : datetime)
  | ReqPause (s : session) (log_id : Z)
  | ReqResume (s : session) (log_id : Z)
  | ReqEnd (s : session) (log_id : Z) (duration : option Z)
      (now : datetime)
  | ReqPurchase (s : session) (item_id : Py.str).

(** One request: the [before_request] hook, then the handler. *)
Definition handle (r : request) (db : DB) : response * DB :=
  match r with
  | ReqCreate s m form now =>
      add_flight_log (clear_invalid_sessions db s) m form now db
  | ReqPause s log_id =>
      pause_flight (clear_invalid_sessions db s) log_id db
  | ReqResume s log_id =>
      resume_flight (clear_invalid_sessions db s) log_id db
  | ReqEnd s log_id duration now =>
      end_flight (clear_invalid_sessions db s) log_id duration now db
  | ReqPurchase s item_id =>
      purchase (clear_invalid_sessions db s) item_id db
  end.

(** The database after a sequence of requests. *)
Fixpoint run (rs : list request) (db : DB) : DB :=
  match rs with
  | [] => db
  | r :: rs' => run rs' (snd (handle r db))
  end.

End AddFlightLog.

(** ** Vocabulary of the properties *)

(** The body of the comprehension of [get_aircraft_list]: the stripped
    item, kept when it is not empty. *)
Definition keep (item : Py.str) : option Py.str :=
  let s := Py.strip item in if Py.truthy s then Some s else None.

(** An aircraft id the comma-separated encoding gives back as it is: not
    empty, no comma, no leading or trailing whitespace. *)
Definition clean (s : Py.str) : Prop :=
  s ≠ [] ∧ Py.strip s = s ∧ 44%N ∉ s.

(** All the items of the catalog, in the order [purchase] visits them. *)
Definition catalog : list shop_item := concat (snd <$> SHOP_ITEMS).

(** The flight numbers the written pattern describes: [GTI_] followed by
    decimal digits, at least one. *)
Definition is_digit (c : N) : Prop := (48 <= c <= 57)%N.

Definition gti_digits (s : Py.str) : Prop :=
  ∃ ds, s = Py.lit "GTI_" ++ ds ∧ ds ≠ [] ∧ Forall is_digit ds.

(** The flight numbers the check of [add_flight_log] lets through: the
    prefix [GTI_] and a length of at least 5. *)
Definition gti_prefixed (s : Py.str) : Prop :=
  Py.startswith s (Py.lit "GTI_") = true ∧ 5 <= Py.len s.



(** A log that was never ended. *)
Definition never_ended (l : FlightLog.t) : Prop :=
  FlightLog.completed_at l = None ∧ FlightLog.status l ≠ Completed.

Definition is_end (r : request) : Prop :=
  match r with ReqEnd _ _ _ _ => True | _ => False end.

Definition not_end (r : request) : Prop :=
  match r with ReqEnd _ _ _ _ => False | _ => True end.

Definition not_pause_resume (r : request) : Prop :=
  match r with ReqPause _ _ | ReqResume _ _ => False | _ => True end.

(** The duration an [end] request reports is not negative; other requests
    report none. *)
Definition duration_nonneg (r : request) : Prop :=
  match r with
  | ReqEnd _ _ duration _ => 0 <= default 0 duration
  | _ => True
  end.

(** The rows [end_flight] writes: the log completed at [now] with duration
    [d], and the pilot rewarded with [h] hours. *)
Definition ended_log (d : Z) (now : datetime) (l : FlightLog.t)
  : FlightLog.t :=
  FlightLog.mk (FlightLog.pilot_id l) (FlightLog.flight_number l)
    (FlightLog.aircraft_type l) (FlightLog.departure_airport l)
    (FlightLog.arrival_airport l) (FlightLog.cargo_type l)
    (FlightLog.departure_time l) d Completed (FlightLog.created_at l)
    (Some now).

Definition rewarded_pilot (h : Z) (p : Pilot.t) : Pilot.t :=
  Pilot.mk (Pilot.username p) (Pilot.password_hash p) (Pilot.name p)
    (Pilot.callsign p) (Pilot.rank p) (Pilot.balance p + 50)
    (Pilot.hours p + h) (Pilot.completed_flights p + 1)
    (Pilot.aircraft_owned p) (Pilot.cargo_delivered p + 50)
    (Pilot.status p) (Pilot.created_at p).

(** The databases the requests can lead to from one with no flight log. *)
Definition reachable (fromisoformat : Py.str → option datetime)
    (upper : Py.str → Py.str) (db : DB) : Prop :=
  ∃ db0 rs, flight_logs db0 = ∅ ∧ db = run fromisoformat upper rs db0.

(** ** Sample data *)

(** The pilot the application seeds an empty database with. *)
Definition sample_pilot : Pilot.t :=
  Pilot.mk (Py.lit "pilot001") (Py.lit "pbkdf2:sha256")
    (Py.lit "Captain John Smith") (Py.lit "ATLAS001") (Py.lit "Captain")
    45000 0 0 (Py.lit "boeing_767, boeing_777") 0 (Py.lit "Active") 0.

(** A second pilot, registered later. *)
Definition other_pilot : Pilot.t :=
  Pilot.mk (Py.lit "pilot002") (Py.lit "pbkdf2:sha256")
    (Py.lit "Jane Doe") (Py.lit "ATLAS002") (Py.lit "First Officer")
    25000 0 0 [] 0 (Py.lit "Active") 100.

Definition sample_db : DB :=
  mkDB {[ 1 := sample_pilot; 2 := other_pilot ]} ∅.

(** A parser that agrees with [datetime.fromisoformat] on the one string
    the sample forms carry, and an [upper] that agrees with [str.upper] on
    their airport codes, which are in upper case already. *)
Definition sample_fromisoformat (s : Py.str) : option datetime :=
  if bool_decide (s = Py.lit "2024-01-01T00:00:00") then Some 1704067200
  else None.

Definition sample_upper (s : Py.str) : Py.str := s.

Definition sample_form (flight_number : string) : flight_form :=
  mk_form (Some (Py.lit flight_number)) (Some (Py.lit "747-8F"))
    (Some (Py.lit "KJFK")) (Some (Py.lit "EGLL"))
    (Some (Py.lit "Humanitarian Aid"))
    (Some (Py.lit "2024-01-01T00:00:00")).

(** The log [sample_form] creates for pilot 1 at time [now]. *)
Definition sample_log (flight_number : string) (now : datetime)
  : FlightLog.t :=
  FlightLog.mk 1 (Py.lit flight_number) (Py.lit "747-8F") (Py.lit "KJFK")
    (Py.lit "EGLL") (Py.lit "Humanitarian Aid") 1704067200 0 InProgress
    now None.

(** The sample database after pilot 1 created a flight log. *)
Definition sample_db_flying : DB :=
  put_flight_log 1 (sample_log "GTI_42" 5) sample_db.

(** The same, after the flight was completed in one hour. *)
Definition sample_db_completed : DB :=
  snd (end_flight (Some 1) 1 (Some 3600) 3605 sample_db_flying).

(** ** The read-only pages and the pilot API *)

(** What [inventory] answers: the redirect to the login page, the page
    rendered from the owned items and the pilot, or the failure of
    [pilot.get_aircraft_list()] when the session names no pilot row. *)
Inductive inventory_page :=
  | InventoryLogin
  | InventoryError
  | InventoryRender (owned_items : list shop_item) (pilot : Pilot.t).

(** The loops of [inventory]: for every owned id, in every category, the
    first item with that id; the [break] leaves the category only. *)
Definition owned_items (ids : list Py.str) : list shop_item :=
  item_id ← ids;
  omap (λ category : Py.str * list shop_item,
          find_in_category item_id category.2) SHOP_ITEMS.

(** [inventory], route [/inventory]. *)
Definition inventory (s : session) (db : DB) : inventory_page :=
  match s with
  | None => InventoryLogin
  | Some sp =>
      match pilots db !! sp with
      | None => InventoryError
      | Some pilot =>
          InventoryRender (owned_items (Pilot.get_aircraft_list pilot)) pilot
      end
  end.

(** What [flight_tracker] answers. *)
Inductive tracker_page :=
  | TrackerLogin                (* redirect to the login page *)
  | TrackerNotFound             (* 404 from [get_or_404] *)
  | TrackerError                (* [pilot.id] on no pilot row *)
  | TrackerUnauthorized         (* flash, redirect to [flight_logs] *)
  | TrackerRender (pilot : Pilot.t) (flight_log : FlightLog.t).

(** [flight_tracker], route [/flight-tracker/<int:log_id>]. *)
Definition flight_tracker (s : session) (log_id : Z) (db : DB)
  : tracker_page :=
  match s with
  | None => TrackerLogin
  | Some sp =>
      match flight_logs db !! log_id with
      | None => TrackerNotFound
      | Some flight_log =>
          match pilots db !! sp with
          | None => TrackerError
          | Some pilot =>
              if negb (FlightLog.pilot_id flight_log =? sp) then
                TrackerUnauthorized
              else TrackerRender pilot flight_log
          end
      end
  end.














(** ** Vocabulary of the further properties *)

Definition is_purchase (r : request) : Prop :=
  match r with ReqPurchase _ _ => True | _ => False end.

(** The session cookie a request carries. *)
Definition request_session (r : request) : session :=
  match r with
  | ReqCreate s _ _ _ | ReqPause s _ | ReqResume s _ | ReqEnd s _ _ _
  | ReqPurchase s _ => s
  end.


(** The columns of a flight log that no handler writes after creation. *)
Definition same_flight (l l' : FlightLog.t) : Prop :=
  FlightLog.pilot_id l' = FlightLog.pilot_id l
  ∧ FlightLog.flight_number l' = FlightLog.flight_number l
  ∧ FlightLog.aircraft_type l' = FlightLog.aircraft_type l
  ∧ FlightLog.departure_airport l' = FlightLog.departure_airport l
  ∧ FlightLog.arrival_airport l' = FlightLog.arrival_airport l
  ∧ FlightLog.cargo_type l' = FlightLog.cargo_type l
  ∧ FlightLog.departure_time l' = FlightLog.departure_time l
  ∧ FlightLog.created_at l' = FlightLog.created_at l.

(** The columns of a pilot that the handlers of [request] never write. *)
Definition same_identity (p p' : Pilot.t) : Prop :=
  Pilot.username p' = Pilot.username p
  ∧ Pilot.password_hash p' = Pilot.password_hash p
  ∧ Pilot.name p' = Pilot.name p
  ∧ Pilot.callsign p' = Pilot.callsign p
  ∧ Pilot.rank p' = Pilot.rank p
  ∧ Pilot.status p' = Pilot.status p
  ∧ Pilot.created_at p' = Pilot.created_at p.

(** ** Binary64 division by 3600 *)

Lemma digits2_pos_bounds (p : positive) :
  2 ^ (Zpos (digits2_pos p) - 1) <= Zpos p < 2 ^ Zpos (digits2_pos p).
Proof.
  induction p as [p IH | p IH |]; simpl digits2_pos.
  - rewrite Pos2Z.inj_succ.
    replace (Z.succ (Zpos (digits2_pos p)) - 1)
      with (Z.succ (Zpos (digits2_pos p) - 1)) by lia.
    rewrite !Z.pow_succ_r by lia. lia.
  - rewrite Pos2Z.inj_succ.
    replace (Z.succ (Zpos (digits2_pos p)) - 1)
      with (Z.succ (Zpos (digits2_pos p) - 1)) by lia.
    rewrite !Z.pow_succ_r by lia. lia.
  - simpl. lia.
Qed.

Lemma Zdigits2_unique (q k : Z) :
  0 < k -> 2 ^ (k - 1) <= q < 2 ^ k -> Zdigits2 q = k.
Proof.
  intros Hk [Hlo Hhi].
  destruct q as [| p | p]; try (pose proof (Z.pow_pos_nonneg 2 (k - 1)); lia).
  simpl. pose proof (digits2_pos_bounds p) as [Hl Hh].
  set (d := Zpos (digits2_pos p)) in *.
  assert (Hd : 0 < d) by (unfold d; lia).
  destruct (Z.lt_trichotomy d k) as [Hlt | [Heq | Hgt]]; [| exact Heq |].
  - assert (2 ^ d <= 2 ^ (k - 1)) by (apply Z.pow_le_mono_r; lia). lia.
  - assert (2 ^ k <= 2 ^ (d - 1)) by (apply Z.pow_le_mono_r; lia). lia.
Qed.

Lemma loc_of_shr_record_of_loc m l :
  loc_of_shr_record (shr_record_of_loc m l) = l.
Proof. destruct l as [| []]; reflexivity. Qed.

Lemma shr_m_record_of_loc m l : shr_m (shr_record_of_loc m l) = m.
Proof. destruct l as [| []]; reflexivity. Qed.

Lemma round_nearest_even_cases m l :
  round_nearest_even m l = m \/ round_nearest_even m l = m + 1.
Proof.
  destruct l as [| []]; simpl; auto. destruct (Z.even m); auto.
Qed.

Lemma mod_4096_of_all_ones (x n : Z) :
  12 <= n -> x mod 2 ^ n = 2 ^ n - 1 -> x mod 4096 = 4095.
Proof.
  intros Hn Hx.
  assert (Hp : 2 ^ n = 4096 * 2 ^ (n - 12)).
  { change 4096 with (2 ^ 12). rewrite <- Z.pow_add_r by lia. f_equal. lia. }
  assert (Hpos : 0 < 2 ^ (n - 12)) by (apply Z.pow_pos_nonneg; lia).
  pose proof (Z.div_mod x (2 ^ n) ltac:(lia)) as Hdm.
  rewrite Hx, Hp in Hdm.
  symmetry.
  apply (Z.mod_unique x 4096
           (2 ^ (n - 12) * (x / (4096 * 2 ^ (n - 12))) + 2 ^ (n - 12) - 1));
    lia.
Qed.

Lemma div_succ_same (x n : Z) :
  0 <= n -> x mod 2 ^ n <> 2 ^ n - 1 -> (x + 1) / 2 ^ n = x / 2 ^ n.
Proof.
  intros Hn Hx.
  assert (Hpos : 0 < 2 ^ n) by (apply Z.pow_pos_nonneg; lia).
  pose proof (Z.div_mod x (2 ^ n) ltac:(lia)) as Hdm.
  pose proof (Z.mod_pos_bound x (2 ^ n) Hpos) as Hb.
  symmetry.
  apply (Z.div_unique (x + 1) (2 ^ n) (x / 2 ^ n) (x mod 2 ^ n + 1)); lia.
Qed.

Lemma int_finite_neg sx (m : Z) (e : Z) :
  0 < m -> e < 0 ->
  Py.int (S754_finite sx (Z.to_pos m) e)
  = Some (if sx then - (m / 2 ^ (- e)) else m / 2 ^ (- e)).
Proof.
  intros Hm He. destruct e as [| k | k]; try lia.
  unfold Py.int. rewrite Z2Pos.id by lia.
  rewrite Z.shiftr_div_pow2 by lia. reflexivity.
Qed.

Lemma int_round_53 sx q e l :
  2 ^ 52 <= q < 2 ^ 53 -> -64 <= e <= -12 -> q mod 4096 <> 4095 ->
  Py.int (binary_round_aux 53 1024 sx q e l)
  = Some (if sx then - (q / 2 ^ (- e)) else q / 2 ^ (- e)).
Proof.
  intros Hq He Hm.
  assert (Hd : Zdigits2 q = 53) by (apply Zdigits2_unique; [lia | exact Hq]).
  unfold binary_round_aux, shr_fexp. rewrite Hd.
  replace (fexp 53 1024 (53 + e) - e) with 0 by (unfold fexp, emin; lia).
  cbn [shr]. rewrite shr_m_record_of_loc, loc_of_shr_record_of_loc.
  set (m2 := round_nearest_even q l).
  assert (Hm2 : m2 = q \/ m2 = q + 1) by apply round_nearest_even_cases.
  assert (Hne : q <> 2 ^ 53 - 1).
  { intros ->. apply Hm. reflexivity. }
  assert (Hq2 : 2 ^ 52 <= m2 < 2 ^ 53) by lia.
  assert (Hd2 : Zdigits2 m2 = 53) by (apply Zdigits2_unique; [lia | exact Hq2]).
  rewrite Hd2.
  replace (fexp 53 1024 (53 + e) - e) with 0 by (unfold fexp, emin; lia).
  cbn [shr shr_record_of_loc shr_m].
  assert (Hpos : 0 < m2) by (pose proof (Z.pow_pos_nonneg 2 52); lia).
  destruct m2 as [| pm | pm] eqn:Em2; try lia.
  replace (e <=? 1024 - 53) with true by (symmetry; apply Z.leb_le; lia).
  change (S754_finite sx pm e) with (S754_finite sx (Z.to_pos (Zpos pm)) e).
  rewrite int_finite_neg by lia.
  assert (Hdiv : Zpos pm / 2 ^ (- e) = q / 2 ^ (- e)).
  { destruct Hm2 as [-> | ->]; [reflexivity |].
    apply div_succ_same; [lia |].
    intros Hc. apply Hm.
    apply (mod_4096_of_all_ones q (- e)); [lia | exact Hc]. }
  rewrite Hdiv. reflexivity.
Qed.

Lemma int_round_54 sx q e l :
  2 ^ 53 <= q < 2 ^ 54 -> -64 <= e <= -12 -> q mod 4096 <> 4095 ->
  Py.int (binary_round_aux 53 1024 sx q e l)
  = Some (if sx then - (q / 2 ^ (- e)) else q / 2 ^ (- e)).
Proof.
  intros Hq He Hm.
  assert (Hd : Zdigits2 q = 54) by (apply Zdigits2_unique; [lia | exact Hq]).
  unfold binary_round_aux, shr_fexp. rewrite Hd.
  replace (fexp 53 1024 (54 + e) - e) with 1 by (unfold fexp, emin; lia).
  cbn [shr SpecFloat.iter_pos].
  assert (Hne : q <> 2 ^ 54 - 1).
  { intros ->. apply Hm. reflexivity. }
  assert (Hsplit : 2 ^ (- e) = 2 * 2 ^ (- (e + 1))).
  { rewrite <- Z.pow_succ_r by lia. f_equal. lia. }
  assert (Hpow : 0 < 2 ^ (- (e + 1))) by (apply Z.pow_pos_nonneg; lia).
  (* the mantissa after the one-bit shift, and its rounding *)
  assert (Hr : exists m2 : Z,
    round_nearest_even (shr_m (shr_1 (shr_record_of_loc q l)))
      (loc_of_shr_record (shr_1 (shr_record_of_loc q l))) = m2
    /\ 2 ^ 52 <= m2 < 2 ^ 53
    /\ m2 / 2 ^ (- (e + 1)) = q / 2 ^ (- e)).
  { destruct q as [| [p | p |] | p]; try lia.
    - (* odd quotient *)
      assert (Hh : Zpos p~1 / 2 ^ (- e) = Zpos p / 2 ^ (- (e + 1))).
      { rewrite Hsplit, <- Z.div_div by lia. f_equal.
        symmetry. apply (Z.div_unique (Zpos p~1) 2 (Zpos p) 1); lia. }
      eexists; split; [reflexivity |].
      pose proof (round_nearest_even_cases
        (shr_m (shr_1 (shr_record_of_loc (Zpos p~1) l)))
        (loc_of_shr_record (shr_1 (shr_record_of_loc (Zpos p~1) l)))) as Hc.
      assert (Hsm : shr_m (shr_1 (shr_record_of_loc (Zpos p~1) l)) = Zpos p)
        by (destruct l as [| []]; reflexivity).
      rewrite Hsm in Hc |- *.
      destruct Hc as [-> | ->]; [split; [lia | congruence] |].
      split; [lia |]. rewrite Hh. apply div_succ_same; [lia |].
      intros Hc. apply Hm. apply (mod_4096_of_all_ones _ (- e)); [lia |].
      pose proof (Z.div_mod (Zpos p) (2 ^ (- (e + 1))) ltac:(lia)) as Hdm.
      rewrite Hc in Hdm.
      symmetry.
      apply (Z.mod_unique _ _ (Zpos p / 2 ^ (- (e + 1)))); lia.
    - (* even quotient: the shifted-out bit is 0, rounding keeps [p] *)
      assert (Hh : Zpos p~0 / 2 ^ (- e) = Zpos p / 2 ^ (- (e + 1))).
      { rewrite Hsplit, <- Z.div_div by lia. f_equal.
        symmetry. apply (Z.div_unique (Zpos p~0) 2 (Zpos p) 0); lia. }
      exists (Zpos p). split; [destruct l as [| []]; reflexivity |].
      split; [lia | congruence]. }
  destruct Hr as (m2 & -> & Hq2 & Hdiv).
  assert (Hd2 : Zdigits2 m2 = 53) by (apply Zdigits2_unique; [lia | exact Hq2]).
  rewrite Hd2.
  replace (fexp 53 1024 (53 + (e + 1)) - (e + 1)) with 0
    by (unfold fexp, emin; lia).
  cbn [shr shr_record_of_loc shr_m].
  assert (Hpos : 0 < m2) by (pose proof (Z.pow_pos_nonneg 2 52); lia).
  destruct m2 as [| pm | pm] eqn:Em2; try lia.
  replace (e + 1 <=? 1024 - 53) with true by (symmetry; apply Z.leb_le; lia).
  change (S754_finite sx pm (e + 1))
    with (S754_finite sx (Z.to_pos (Zpos pm)) (e + 1)).
  rewrite int_finite_neg by lia.
  rewrite Hdiv. reflexivity.
Qed.

Lemma int_flight_hours_SFdiv d :
  int_flight_hours d = Py.int (SFdiv 53 1024 (Py.of_int d) (Py.of_int 3600)).
Proof.
  unfold int_flight_hours, Py.truediv.
  change (3600 =? 0) with false. cbv iota.
  destruct (SFdiv 53 1024 (Py.of_int d) (Py.of_int 3600)); reflexivity.
Qed.

Lemma SFdiv_core_3600 (p : positive) :
  Zpos p < 2 ^ 53 ->
  exists q r n,
    SFdiv_core_binary 53 1024 (Zpos p) 0 3600 0
    = (q, - n, new_location 3600 r)
    /\ 12 <= n <= 64
    /\ Zpos p * 2 ^ n = 3600 * q + r
    /\ 0 <= r < 3600
    /\ 2 ^ 64 <= Zpos p * 2 ^ n < 2 ^ 65.
Proof.
  intros Hp.
  pose proof (digits2_pos_bounds p) as [Hlo Hhi].
  unfold SFdiv_core_binary.
  change (Zdigits2 3600) with 12.
  change (Zdigits2 (Zpos p)) with (Zpos (digits2_pos p)).
  set (dd := Zpos (digits2_pos p)) in *.
  assert (Hdd : 1 <= dd <= 53).
  { split; [unfold dd; lia |].
    destruct (Z.le_gt_cases dd 53) as [H | H]; [exact H |].
    assert (2 ^ 53 <= 2 ^ (dd - 1)) by (apply Z.pow_le_mono_r; lia). lia. }
  replace (Z.min (fexp 53 1024 (dd + 0 - (12 + 0))) (0 - 0)) with (dd - 65)
    by (unfold fexp, emin; lia).
  replace (0 - 0 - (dd - 65)) with (65 - dd) by lia.
  destruct (65 - dd) as [| s | s] eqn:Es; try lia.
  rewrite Z.shiftl_mul_pow2 by lia.
  pose proof (Z_div_mod (Zpos p * 2 ^ Zpos s) 3600 ltac:(lia)) as Hdm.
  destruct (Z.div_eucl (Zpos p * 2 ^ Zpos s) 3600) as [q r].
  exists q, r, (Zpos s).
  split; [f_equal; f_equal; lia |].
  split; [lia |]. split; [tauto |]. split; [tauto |].
  assert (Hpow : 2 ^ 65 = 2 ^ dd * 2 ^ Zpos s).
  { rewrite <- Z.pow_add_r by lia. f_equal. lia. }
  assert (Hpow' : 2 ^ 64 = 2 ^ (dd - 1) * 2 ^ Zpos s).
  { rewrite <- Z.pow_add_r by lia. f_equal. lia. }
  assert (Hs : 0 < 2 ^ Zpos s) by (apply Z.pow_pos_nonneg; lia).
  rewrite Hpow, Hpow'. split.
  - apply Z.mul_le_mono_nonneg_r; lia.
  - apply Z.mul_lt_mono_pos_r; lia.
Qed.

Lemma int_SFdiv_3600 sx (p : positive) :
  Zpos p < 2 ^ 53 ->
  Py.int (SFdiv 53 1024 (S754_finite sx p 0) (S754_finite false 3600 0))
  = Some (if sx then - (Zpos p / 3600) else Zpos p / 3600).
Proof.
  intros Hp.
  destruct (SFdiv_core_3600 p Hp) as (q & r & n & Hcore & Hn & Hqr & Hr & Hb).
  unfold SFdiv. rewrite Hcore, xorb_false_r.
  assert (Hk : exists k, 2 ^ n = 4096 * k).
  { exists (2 ^ (n - 12)). change 4096 with (2 ^ 12).
    rewrite <- Z.pow_add_r by lia. f_equal. lia. }
  destruct Hk as [k Hk].
  assert (Hpn : 0 < 2 ^ n) by (apply Z.pow_pos_nonneg; lia).
  assert (Hquot : q / 2 ^ n = Zpos p / 3600).
  { assert (Hq : q = (Zpos p * 2 ^ n) / 3600)
      by (apply (Z.div_unique _ 3600 q r); lia).
    rewrite Hq, Z.div_div by lia.
    apply Z.div_mul_cancel_r; lia. }
  assert (Hmod : q mod 4096 <> 4095).
  { intros Hc.
    pose proof (Z.div_mod q 4096 ltac:(lia)) as Hdm. rewrite Hc in Hdm.
    rewrite Hk in Hqr. lia. }
  change (2 ^ 64) with 18446744073709551616 in Hb.
  change (2 ^ 65) with 36893488147419103232 in Hb.
  destruct (Z.lt_ge_cases q (2 ^ 53)) as [Hlt | Hge].
  - rewrite int_round_53;
      [rewrite Z.opp_involutive, Hquot; reflexivity | | lia | exact Hmod].
    change (2 ^ 52) with 4503599627370496.
    change (2 ^ 53) with 9007199254740992 in Hlt |- *. lia.
  - rewrite int_round_54;
      [rewrite Z.opp_involutive, Hquot; reflexivity | | lia | exact Hmod].
    change (2 ^ 54) with 18014398509481984.
    change (2 ^ 53) with 9007199254740992 in Hge |- *. lia.
Qed.

Lemma int_flight_hours_quot (d : Z) :
  - 2 ^ 53 < d < 2 ^ 53 -> int_flight_hours d = Some (Z.quot d 3600).
Proof.
  intros Hd. rewrite int_flight_hours_SFdiv.
  destruct d as [| p | p].
  - reflexivity.
  - cbn [Py.of_int]. rewrite int_SFdiv_3600 by lia.
    rewrite Z.quot_div_nonneg by lia. reflexivity.
  - cbn [Py.of_int]. rewrite int_SFdiv_3600 by lia.
    change (Zneg p) with (- Zpos p).
    rewrite Z.quot_opp_l by lia. rewrite Z.quot_div_nonneg by lia. reflexivity.
Qed.

(** ** The comma-separated encoding of the owned aircraft *)

Section Strings.

Implicit Types (s x : Py.str) (c : N) (l : list Py.str).

Lemma lstrip_suffix s : suffix (Py.lstrip s) s.
Proof.
  induction s as [| c s IH]; simpl; [done |].
  destruct (Py.isspace c); [by apply suffix_cons_r | done].
Qed.

Lemma rstrip_prefix s : prefix (Py.rstrip s) s.
Proof.
  induction s as [| c s IH]; simpl; [done |].
  destruct (Py.rstrip s) as [| d r] eqn:E.
  - destruct (Py.isspace c); [apply prefix_nil |].
    apply prefix_cons, prefix_nil.
  - by apply prefix_cons.
Qed.

Lemma strip_elem c s : c ∈ Py.strip s → c ∈ s.
Proof.
  unfold Py.strip. intros H.
  destruct (rstrip_prefix (Py.lstrip s)) as [k1 E1].
  destruct (lstrip_suffix s) as [k2 E2].
  rewrite E2, E1. set_solver.
Qed.

Lemma rstrip_idemp s : Py.rstrip (Py.rstrip s) = Py.rstrip s.
Proof.
  induction s as [| c s IH]; simpl; [done |].
  destruct (Py.rstrip s) as [| d r] eqn:E.
  - destruct (Py.isspace c) eqn:Ec; simpl; [done |]. by rewrite Ec.
  - simpl in IH |- *. by rewrite IH.
Qed.

Lemma lstrip_head s :
  Py.lstrip s = [] ∨ ∃ c t, Py.lstrip s = c :: t ∧ Py.isspace c = false.
Proof.
  induction s as [| c s IH]; simpl; [by left |].
  destruct (Py.isspace c) eqn:Ec; [done |]. right. eauto.
Qed.

Lemma rstrip_head c t :
  Py.isspace c = false → ∃ r, Py.rstrip (c :: t) = c :: r.
Proof.
  intros Hc. simpl. destruct (Py.rstrip t); [rewrite Hc |]; eauto.
Qed.

Lemma strip_idemp s : Py.strip (Py.strip s) = Py.strip s.
Proof.
  unfold Py.strip.
  destruct (lstrip_head s) as [-> | (c & t & -> & Hc)]; [done |].
  destruct (rstrip_head c t Hc) as [r Hr].
  rewrite Hr at 1. simpl Py.lstrip. rewrite Hc, <- Hr.
  apply rstrip_idemp.
Qed.

Lemma strip_space s : Py.strip (32%N :: s) = Py.strip s.
Proof. reflexivity. Qed.

Lemma split_cons_neq sep c s :
  c ≠ sep →
  ∃ w ws, Py.split sep s = w :: ws ∧ Py.split sep (c :: s) = (c :: w) :: ws.
Proof.
  intros Hc. simpl.
  destruct (N.eqb_spec c sep) as [-> | _]; [done |].
  destruct s as [| d s]; simpl; [eauto |].
  destruct (d =? sep)%N; [eauto |].
  destruct (Py.split sep s); eauto.
Qed.

Lemma split_no_sep sep s : sep ∉ s → Py.split sep s = [s].
Proof.
  induction s as [| c s IH]; intros Hs; [done |].
  apply not_elem_of_cons in Hs as [Hc Hs].
  destruct (split_cons_neq sep c s) as (w & ws & Hw & ->); [done |].
  rewrite IH in Hw by done. by simplify_eq.
Qed.

Lemma split_app_sep sep x s :
  sep ∉ x → Py.split sep (x ++ sep :: s) = x :: Py.split sep s.
Proof.
  induction x as [| c x IH]; intros Hx.
  - simpl. by rewrite N.eqb_refl.
  - apply not_elem_of_cons in Hx as [Hc Hx].
    destruct (split_cons_neq sep c (x ++ sep :: s)) as (w & ws & Hw & Hs);
      [done |].
    rewrite <- app_comm_cons, Hs. rewrite IH in Hw by done. by simplify_eq.
Qed.

(** Splitting a [', '.join] of comma-free fields gives the fields back,
    each but the first with the blank of the separator in front. *)
Lemma split_join x l :
  Forall (λ y, 44%N ∉ y) (x :: l) →
  Py.split 44 (Py.join (Py.lit ", ") (x :: l)) = x :: map (cons 32%N) l.
Proof.
  revert x. induction l as [| y l IH]; intros x Hf.
  - simpl. apply split_no_sep. by inversion Hf.
  - inversion Hf as [| ? ? Hx Hf']; subst.
    change (Py.join (Py.lit ", ") (x :: y :: l))
      with (x ++ 44%N :: 32%N :: Py.join (Py.lit ", ") (y :: l)).
    rewrite split_app_sep by done.
    destruct (split_cons_neq 44%N 32%N (Py.join (Py.lit ", ") (y :: l)))
      as (w & ws & Hw & ->); [done |].
    rewrite IH in Hw by done. by simplify_eq.
Qed.

Lemma keep_clean x : clean x → keep x = Some x.
Proof.
  intros (Hne & Hs & _). unfold keep. rewrite Hs.
  destruct x; [done | reflexivity].
Qed.

Lemma keep_space_clean x : clean x → keep (32%N :: x) = Some x.
Proof. intros H. unfold keep. rewrite strip_space. by apply keep_clean. Qed.

Lemma keep_result item s :
  keep item = Some s → 44%N ∉ item → clean s.
Proof.
  unfold keep. intros H Hc.
  destruct (Py.strip item) as [| c t] eqn:E; [done |].
  simpl in H. simplify_eq. split; [done |]. split.
  - rewrite <- E. apply strip_idemp.
  - intros Hin. apply Hc. apply strip_elem. by rewrite E.
Qed.

Lemma split_fields_no_sep sep s : Forall (λ y, sep ∉ y) (Py.split sep s).
Proof.
  induction s as [| c s IH]; simpl.
  - constructor; [apply not_elem_of_nil | constructor].
  - destruct (N.eqb_spec c sep) as [-> | Hc].
    + constructor; [apply not_elem_of_nil | done].
    + destruct (Py.split sep s) as [| w ws].
      * constructor; [| constructor].
        apply not_elem_of_cons. split; [done | apply not_elem_of_nil].
      * inversion IH as [| ? ? Hw Hws]; subst.
        constructor; [| done]. apply not_elem_of_cons. by split.
Qed.

End Strings.

Lemma get_aircraft_list_keep (self : Pilot.t) :
  Pilot.get_aircraft_list self
  = if Py.truthy (Pilot.aircraft_owned self)
    then omap keep (Py.split 44 (Pilot.aircraft_owned self)) else [].
Proof. reflexivity. Qed.

(** Every entry [get_aircraft_list] returns is clean. *)
Lemma get_aircraft_list_clean (self : Pilot.t) :
  Forall clean (Pilot.get_aircraft_list self).
Proof.
  rewrite get_aircraft_list_keep.
  destruct (Py.truthy (Pilot.aircraft_owned self)); [| constructor].
  pose proof (split_fields_no_sep 44%N (Pilot.aircraft_owned self)) as Hf.
  induction Hf as [| item items Hitem _ IH]; simpl; [constructor |].
  destruct (keep item) as [s |] eqn:E; [| exact IH].
  constructor; [by eapply keep_result | exact IH].
Qed.

Lemma omap_cons_Some {A B} (f : A → option B) x l y :
  f x = Some y → omap f (x :: l) = y :: omap f l.
Proof. intros H. simpl. by rewrite H. Qed.

Lemma omap_keep_spaced (l : list Py.str) :
  Forall clean l → omap keep (map (cons 32%N) l) = l.
Proof.
  induction 1 as [| x l Hx _ IH]; [done |].
  cbn [map]. rewrite (omap_cons_Some _ _ _ x) by by apply keep_space_clean.
  by rewrite IH.
Qed.

(** Decoding the encoding of a non-empty list of clean ids gives the list
    back. *)
Lemma get_aircraft_list_join (self : Pilot.t) (l : list Py.str) :
  l ≠ [] → Forall clean l →
  Pilot.get_aircraft_list
    (Pilot.set_aircraft_owned (Py.join (Py.lit ", ") l) self) = l.
Proof.
  intros Hne Hl. destruct l as [| x l]; [done |].
  inversion Hl as [| ? ? Hx Hl']; subst.
  rewrite get_aircraft_list_keep.
  cbn [Pilot.aircraft_owned Pilot.set_aircraft_owned].
  assert (Ht : Py.truthy (Py.join (Py.lit ", ") (x :: l)) = true).
  { destruct Hx as (Hx & _). destruct x as [| c x]; [done |].
    destruct l; reflexivity. }
  rewrite Ht, split_join.
  - rewrite (omap_cons_Some _ _ _ x) by by apply keep_clean.
    by rewrite omap_keep_spaced.
  - eapply Forall_impl; [exact Hl |]. by intros y (_ & _ & ?).
Qed.

(** [add_aircraft] of a clean id that is not yet owned appends it. *)
Lemma get_aircraft_list_add (self : Pilot.t) (id : Py.str) :
  clean id → id ∉ Pilot.get_aircraft_list self →
  Pilot.get_aircraft_list (Pilot.add_aircraft id self)
  = Pilot.get_aircraft_list self ++ [id].
Proof.
  intros Hid Hnot. unfold Pilot.add_aircraft, Py.contains.
  rewrite bool_decide_eq_false_2 by done. cbn [negb].
  apply get_aircraft_list_join.
  - by destruct (Pilot.get_aircraft_list self).
  - apply Forall_app. split; [apply get_aircraft_list_clean |].
    by constructor.
Qed.

Lemma find_in_category_Some id cat item :
  find_in_category id cat = Some item → item ∈ cat ∧ item_id item = id.
Proof.
  induction cat as [| it cat IH]; simpl; [done |].
  case_bool_decide as E.
  - intros [= <-]. split; [left | done].
  - intros H. destruct (IH H). split; [by right | done].
Qed.

Lemma find_item_Some id items item :
  find_item id items = Some item →
  item ∈ concat (snd <$> items) ∧ item_id item = id.
Proof.
  induction items as [| [k cat] items IH]; simpl; [done |].
  destruct (find_in_category id cat) as [it |] eqn:E.
  - intros [= <-]. apply find_in_category_Some in E as [? ?].
    split; [| done]. apply elem_of_app. by left.
  - intros H. destruct (IH H). split; [| done]. apply elem_of_app. by right.
Qed.

Lemma clean_dec_true (s : Py.str) :
  (match s with [] => false | _ => true end
   && bool_decide (Py.strip s = s) && bool_decide (44%N ∉ s)) = true →
  clean s.
Proof.
  intros H. apply andb_prop in H as [H H3]. apply andb_prop in H as [H1 H2].
  apply bool_decide_eq_true in H2, H3.
  split; [by destruct s | done].
Qed.

Lemma catalog_clean : Forall (λ it, clean (item_id it)) catalog.
Proof.
  repeat (constructor; [apply clean_dec_true; vm_compute; reflexivity |]).
  constructor.
Qed.

(** ** Sign of the hours *)

Lemma binary_round_aux_shape sx m e l :
  (∃ m' e', binary_round_aux 53 1024 sx m e l = S754_finite sx m' e')
  ∨ binary_round_aux 53 1024 sx m e l = S754_zero sx
  ∨ binary_round_aux 53 1024 sx m e l = S754_infinity sx
  ∨ binary_round_aux 53 1024 sx m e l = S754_nan.
Proof.
  unfold binary_round_aux.
  destruct (shr_fexp 53 1024 m e l) as [mrs' e'].
  destruct (shr_fexp 53 1024 _ e' loc_Exact) as [mrs'' e''].
  destruct (shr_m mrs'') as [| p | p]; [auto | | auto].
  destruct (e'' <=? 1024 - 53); eauto.
Qed.

Lemma int_finite_sign m e v :
  Py.int (S754_finite false m e) = Some v → 0 <= v.
Proof.
  intros [= <-]. destruct e as [| k | k].
  - apply Z.shiftl_nonneg. lia.
  - apply Z.shiftl_nonneg. lia.
  - apply Z.shiftr_nonneg. lia.
Qed.

(** A duration that is not negative never gives negative hours, whatever
    its size. *)
Lemma int_flight_hours_nonneg (d h : Z) :
  0 <= d → int_flight_hours d = Some h → 0 <= h.
Proof.
  intros Hd. rewrite int_flight_hours_SFdiv.
  destruct d as [| p | p]; [| | lia].
  - by intros [= <-].
  - cbn [Py.of_int SFdiv].
    destruct (SFdiv_core_binary 53 1024 (Z.pos p) 0 3600 0) as [[mz ez] lz].
    destruct (binary_round_aux_shape (xorb false false) mz ez lz)
      as [(m' & e' & ->) | [-> | [-> | ->]]]; try done.
    + apply int_finite_sign.
    + by intros [= <-].
Qed.

(** ** Fresh keys *)

Lemma foldr_max_ge (k : Z) (l : list Z) : k ∈ l → k <= foldr Z.max 0 l.
Proof.
  induction l as [| x l IH]; [by intros ?%elem_of_nil |].
  intros [-> | H]%elem_of_cons; simpl; [lia |]. specialize (IH H). lia.
Qed.

Lemma next_id_fresh {A} (m : gmap Z A) : m !! next_id m = None.
Proof.
  destruct (m !! next_id m) as [x |] eqn:E; [| done].
  apply elem_of_map_to_list in E.
  assert (H : next_id m ∈ (map_to_list m).*1).
  { apply list_elem_of_fmap. by exists (next_id m, x). }
  apply foldr_max_ge in H. unfold next_id in H at 1. lia.
Qed.

(** ** The handlers on an authorized call *)

Lemma pause_flight_authorized sp log_id db l :
  flight_logs db !! log_id = Some l → FlightLog.pilot_id l = sp →
  pause_flight (Some sp) log_id db
  = (Json 200 FlightPaused,
     put_flight_log log_id (FlightLog.set_status Paused l) db).
Proof.
  intros Hl Hp. unfold pause_flight. rewrite Hl, Hp, Z.eqb_refl. done.
Qed.

Lemma resume_flight_authorized sp log_id db l :
  flight_logs db !! log_id = Some l → FlightLog.pilot_id l = sp →
  resume_flight (Some sp) log_id db
  = (Json 200 FlightResumed,
     put_flight_log log_id (FlightLog.set_status InProgress l) db).
Proof.
  intros Hl Hp. unfold resume_flight. rewrite Hl, Hp, Z.eqb_refl. done.
Qed.

Lemma end_flight_authorized sp log_id duration now db pilot l h :
  pilots db !! sp = Some pilot →
  flight_logs db !! log_id = Some l → FlightLog.pilot_id l = sp →
  int_flight_hours (default 0 duration) = Some h →
  fits_column (default 0 duration) && pilot_fits (rewarded_pilot h pilot)
  = true →
  end_flight (Some sp) log_id duration now db
  = (Json 200 (FlightCompleted h 50 50),
     put_pilot sp (rewarded_pilot h pilot)
       (put_flight_log log_id (ended_log (default 0 duration) now l) db)).
Proof.
  intros Hp Hl Ho Hh Hfit. unfold end_flight.
  rewrite Hl, Hp, Ho, Z.eqb_refl. cbn [negb]. rewrite Hh.
  change (pilot_fits _) with (pilot_fits (rewarded_pilot h pilot)).
  by rewrite Hfit.
Qed.

(** A commit that does not fit answers 500 and stores nothing. *)
Lemma end_flight_overflow sp log_id duration now db pilot l h :
  pilots db !! sp = Some pilot →
  flight_logs db !! log_id = Some l → FlightLog.pilot_id l = sp →
  int_flight_hours (default 0 duration) = Some h →
  fits_column (default 0 duration) && pilot_fits (rewarded_pilot h pilot)
  = false →
  end_flight (Some sp) log_id duration now db = (Abort 500, db).
Proof.
  intros Hp Hl Ho Hh Hfit. unfold end_flight.
  rewrite Hl, Hp, Ho, Z.eqb_refl. cbn [negb]. rewrite Hh.
  change (pilot_fits _) with (pilot_fits (rewarded_pilot h pilot)).
  by rewrite Hfit.
Qed.

Lemma fits_column_spec (z : Z) :
  fits_column z = true ↔ - 2 ^ 63 <= z < 2 ^ 63.
Proof.
  unfold fits_column. rewrite andb_true_iff, Z.leb_le, Z.ltb_lt. done.
Qed.

Lemma fits_column_53 (z : Z) : - 2 ^ 53 < z < 2 ^ 53 → fits_column z = true.
Proof. intros Hz. apply fits_column_spec. lia. Qed.

(** A session that does not name the owner of the log is turned away. *)
Lemma not_owner_eqb (s : session) (l : FlightLog.t) sp :
  s ≠ Some (FlightLog.pilot_id l) → s = Some sp →
  negb (FlightLog.pilot_id l =? sp) = true.
Proof.
  intros Hs ->. apply negb_true_iff, Z.eqb_neq. congruence.
Qed.

(** ** What each handler can do to the tables *)

Lemma pause_flight_effect s log_id db :
  snd (pause_flight s log_id db) = db
  ∨ ∃ l, flight_logs db !! log_id = Some l
         ∧ s = Some (FlightLog.pilot_id l)
         ∧ snd (pause_flight s log_id db)
           = put_flight_log log_id (FlightLog.set_status Paused l) db.
Proof.
  unfold pause_flight. destruct s as [sp |]; [| by left].
  destruct (flight_logs db !! log_id) as [l |] eqn:El; [| by left].
  destruct (Z.eqb_spec (FlightLog.pilot_id l) sp) as [<- | Hne]; [| by left].
  right. by exists l.
Qed.

Lemma resume_flight_effect s log_id db :
  snd (resume_flight s log_id db) = db
  ∨ ∃ l, flight_logs db !! log_id = Some l
         ∧ s = Some (FlightLog.pilot_id l)
         ∧ snd (resume_flight s log_id db)
           = put_flight_log log_id (FlightLog.set_status InProgress l) db.
Proof.
  unfold resume_flight. destruct s as [sp |]; [| by left].
  destruct (flight_logs db !! log_id) as [l |] eqn:El; [| by left].
  destruct (Z.eqb_spec (FlightLog.pilot_id l) sp) as [<- | Hne]; [| by left].
  right. by exists l.
Qed.

Lemma end_flight_effect s log_id duration now db :
  snd (end_flight s log_id duration now db) = db
  ∨ ∃ l pilot h,
      flight_logs db !! log_id = Some l
      ∧ pilots db !! FlightLog.pilot_id l = Some pilot
      ∧ s = Some (FlightLog.pilot_id l)
      ∧ int_flight_hours (default 0 duration) = Some h
      ∧ snd (end_flight s log_id duration now db)
        = put_pilot (FlightLog.pilot_id l) (rewarded_pilot h pilot)
            (put_flight_log log_id (ended_log (default 0 duration) now l) db).
Proof.
  unfold end_flight. destruct s as [sp |]; [| by left].
  destruct (flight_logs db !! log_id) as [l |] eqn:El; [| by left].
  destruct (pilots db !! sp) as [pilot |] eqn:Ep; [| by left].
  destruct (Z.eqb_spec (FlightLog.pilot_id l) sp) as [<- | Hne]; [| by left].
  cbn [negb].
  destruct (int_flight_hours (default 0 duration)) as [h |] eqn:Eh;
    [| by left].
  destruct (fits_column (default 0 duration) && pilot_fits _); [| by left].
  right. by exists l, pilot, h.
Qed.

Lemma purchase_logs s item_id db :
  flight_logs (snd (purchase s item_id db)) = flight_logs db.
Proof.
  unfold purchase. repeat case_match; reflexivity.
Qed.

Lemma add_flight_log_effect f u s m form now db :
  snd (add_flight_log f u s m form now db) = db
  ∨ ∃ new_log sp pilot,
      s = Some sp ∧ m = POST
      ∧ try_add_flight_log f u (Some (sp, pilot)) form now = Created new_log
      ∧ pilots db !! sp = Some pilot
      ∧ snd (add_flight_log f u s m form now db)
        = put_flight_log (next_id (flight_logs db)) new_log db.
Proof.
  unfold add_flight_log. destruct s as [sp |]; [| by left].
  destruct m; [by left |].
  destruct (pilots db !! sp) as [pilot |] eqn:Ep;
    cbn [fmap option_fmap option_map].
  - destruct (try_add_flight_log f u (Some (sp, pilot)) form now)
      as [| | new_log] eqn:Et; [by left | by left |].
    right. by exists new_log, sp, pilot.
  - destruct (try_add_flight_log f u None form now) as [| | new_log] eqn:Et;
      [by left | by left |].
    exfalso. unfold try_add_flight_log in Et. repeat case_match; done.
Qed.

(** What a created log looks like. *)
Lemma try_add_flight_log_Created f u pilot form now new_log :
  try_add_flight_log f u pilot form now = Created new_log →
  FlightLog.status new_log = InProgress
  ∧ FlightLog.completed_at new_log = None
  ∧ FlightLog.flight_duration new_log = 0
  ∧ form_flight_number form = Some (FlightLog.flight_number new_log)
  ∧ gti_prefixed (FlightLog.flight_number new_log).
Proof.
  unfold try_add_flight_log, gti_prefixed.
  destruct (form_flight_number form) as [fn |]; [| done].
  destruct (Py.startswith fn (Py.lit "GTI_")) eqn:Es; [| done].
  destruct (Z.ltb_spec (Py.len fn) 5) as [Hlt | Hge]; [done |].
  cbn [negb orb].
  repeat case_match; try done. intros [= <-]. by cbn.
Qed.

(** ** The properties of the specification *)

(** *** Ledger reward (C1) *)

(** C1, as stated, fails, in three ways.  On an authorized [end] with a
    duration of -1 second the hours added are 0, the quotient truncated
    toward zero, where the floor of -1/3600 is -1.  With a duration of
    3600 * 2^51 - 1 seconds, which fits the column, the float quotient
    rounds up to 2^51, one more than the floor.  And for a pilot whose
    hours are at the top of the column, 2^63 - 1, an [end] of 3600 seconds
    is answered 500 and nothing is stored: the log stays in progress. *)
Lemma end_flight_hours_not_floor :
  (∃ h, fst (end_flight (Some 1) 1 (Some (-1)) 3605 sample_db_flying)
        = Json 200 (FlightCompleted h 50 50)
        ∧ h ≠ (-1) / 3600)
  ∧ (∃ h, fst (end_flight (Some 1) 1 (Some (3600 * 2 ^ 51 - 1)) 3605
                 sample_db_flying)
          = Json 200 (FlightCompleted h 50 50)
          ∧ h ≠ (3600 * 2 ^ 51 - 1) / 3600)
  ∧ end_flight (Some 1) 1 (Some 3600) 3605
      (put_pilot 1 (Pilot.set_hours (2 ^ 63 - 1) sample_pilot)
         sample_db_flying)
    = (Abort 500,
       put_pilot 1 (Pilot.set_hours (2 ^ 63 - 1) sample_pilot)
         sample_db_flying).
Proof.
  split; [| split].
  - exists 0. split; [vm_compute; reflexivity | vm_compute; discriminate].
  - exists (2 ^ 51).
    split; [vm_compute; reflexivity | vm_compute; discriminate].
  - vm_compute. reflexivity.
Qed.

(** C1, amended: for every authorized [end] whose duration [d] is an integer
    with [0 <= d < 2^53], and whose new totals fit the integer columns, the
    response reports [d / 3600] hours (the floor), 50 tons and 50 currency
    units; the stored pilot row has its hours grown by [d / 3600], cargo
    and balance by 50 and the completed flights by 1; and the stored log is
    [Completed] with [flight_duration = d] and [completed_at] set to the
    time of the call. *)
Theorem end_flight_reward (sp log_id : Z) (duration : option Z)
    (now : datetime) (db : DB) (pilot : Pilot.t) (l : FlightLog.t) :
  pilots db !! sp = Some pilot →
  flight_logs db !! log_id = Some l →
  FlightLog.pilot_id l = sp →
  0 <= default 0 duration < 2 ^ 53 →
  pilot_fits (rewarded_pilot (default 0 duration / 3600) pilot) = true →
  end_flight (Some sp) log_id duration now db
  = (Json 200 (FlightCompleted (default 0 duration / 3600) 50 50),
     put_pilot sp (rewarded_pilot (default 0 duration / 3600) pilot)
       (put_flight_log log_id (ended_log (default 0 duration) now l) db))
  ∧ pilots (snd (end_flight (Some sp) log_id duration now db)) !! sp
    = Some
        (Pilot.mk (Pilot.username pilot) (Pilot.password_hash pilot)
           (Pilot.name pilot) (Pilot.callsign pilot) (Pilot.rank pilot)
           (Pilot.balance pilot + 50)
           (Pilot.hours pilot + default 0 duration / 3600)
           (Pilot.completed_flights pilot + 1) (Pilot.aircraft_owned pilot)
           (Pilot.cargo_delivered pilot + 50) (Pilot.status pilot)
           (Pilot.created_at pilot))
  ∧ flight_logs (snd (end_flight (Some sp) log_id duration now db)) !! log_id
    = Some
        (FlightLog.mk (FlightLog.pilot_id l) (FlightLog.flight_number l)
           (FlightLog.aircraft_type l) (FlightLog.departure_airport l)
           (FlightLog.arrival_airport l) (FlightLog.cargo_type l)
           (FlightLog.departure_time l) (default 0 duration) Completed
           (FlightLog.created_at l) (Some now)).
Proof.
  intros Hp Hl Ho Hd Hfit.
  assert (E : end_flight (Some sp) log_id duration now db
    = (Json 200 (FlightCompleted (default 0 duration / 3600) 50 50),
       put_pilot sp (rewarded_pilot (default 0 duration / 3600) pilot)
         (put_flight_log log_id (ended_log (default 0 duration) now l) db))).
  { apply end_flight_authorized; try done.
    - rewrite int_flight_hours_quot by lia.
      by rewrite Z.quot_div_nonneg by lia.
    - rewrite Hfit, fits_column_53 by lia. done. }
  split; [exact E |]. rewrite E.
  cbn [snd put_pilot put_flight_log pilots flight_logs].
  split; apply lookup_insert_eq.
Qed.

(** [end(log, 5399)] on a fresh log adds one hour. *)
Lemma end_flight_reward_witness :
  end_flight (Some 1) 1 (Some 5399) 3605 sample_db_flying
  = (Json 200 (FlightCompleted 1 50 50),
     put_pilot 1 (rewarded_pilot 1 sample_pilot)
       (put_flight_log 1 (ended_log 5399 3605 (sample_log "GTI_42" 5))
          sample_db_flying))
  ∧ Pilot.hours
      <$> pilots (snd (end_flight (Some 1) 1 (Some 5399) 3605
                         sample_db_flying)) !! 1
    = Some (Pilot.hours sample_pilot + 1)
  ∧ FlightLog.status
      <$> flight_logs (snd (end_flight (Some 1) 1 (Some 5399) 3605
                              sample_db_flying)) !! 1
    = Some Completed.
Proof.
  destruct (end_flight_reward 1 1 (Some 5399) 3605 sample_db_flying
              sample_pilot (sample_log "GTI_42" 5)
              ltac:(vm_compute; reflexivity) ltac:(vm_compute; reflexivity)
              eq_refl
              ltac:(split; vm_compute; [discriminate | reflexivity])
              ltac:(vm_compute; reflexivity))
    as (E & Hpilot & Hlog).
  split; [exact E |]. split.
  - rewrite Hpilot. reflexivity.
  - rewrite Hlog. reflexivity.
Defined.

(** [end(log, 3600)] on a fresh log: one hour, 50 tons, 50 currency units,
    and the log is completed. *)
Example end_flight_3600 :
  fst (end_flight (Some 1) 1 (Some 3600) 3605 sample_db_flying)
  = Json 200 (FlightCompleted 1 50 50)
  ∧ FlightLog.status
      <$> flight_logs
            (snd (end_flight (Some 1) 1 (Some 3600) 3605 sample_db_flying))
          !! 1
    = Some Completed.
Proof. split; vm_compute; reflexivity. Qed.

(** *** [end] is not idempotent (C4) *)



(** *** Authorization (C7) *)

(** C7: a pause, resume or end request on a log whose owner is not the
    pilot of the session (or with no session at all) is answered with
    401 [Unauthorized], and the database is left as it was. *)
Theorem unauthorized_no_mutation (s : session) (log_id : Z)
    (duration : option Z) (now : datetime) (db : DB) (l : FlightLog.t) :
  flight_logs db !! log_id = Some l →
  s ≠ Some (FlightLog.pilot_id l) →
  pause_flight (clear_invalid_sessions db s) log_id db
  = (Json 401 ErrorUnauthorized, db)
  ∧ resume_flight (clear_invalid_sessions db s) log_id db
    = (Json 401 ErrorUnauthorized, db)
  ∧ end_flight (clear_invalid_sessions db s) log_id duration now db
    = (Json 401 ErrorUnauthorized, db).
Proof.
  intros Hl Hs. unfold clear_invalid_sessions.
  destruct s as [sp |]; [| done].
  destruct (pilots db !! sp) as [pilot |] eqn:Ep; [| done].
  unfold pause_flight, resume_flight, end_flight.
  rewrite Hl, Ep, (not_owner_eqb (Some sp) l sp) by done. done.
Qed.

Lemma unauthorized_no_mutation_witness :
  pause_flight (clear_invalid_sessions sample_db_flying (Some 2)) 1
    sample_db_flying
  = (Json 401 ErrorUnauthorized, sample_db_flying)
  ∧ resume_flight (clear_invalid_sessions sample_db_flying (Some 2)) 1
      sample_db_flying
    = (Json 401 ErrorUnauthorized, sample_db_flying)
  ∧ end_flight (clear_invalid_sessions sample_db_flying (Some 2)) 1
      (Some 3600) 3605 sample_db_flying
    = (Json 401 ErrorUnauthorized, sample_db_flying).
Proof.
  apply (unauthorized_no_mutation (Some 2) 1 (Some 3600) 3605
           sample_db_flying (sample_log "GTI_42" 5)).
  - vm_compute. reflexivity.
  - vm_compute. discriminate.
Defined.

(** *** Pause and resume touch the status only (C9) *)

(** C9: an authorized pause or resume replaces the log by one that differs
    in [status] only, and leaves every other log and the whole pilot table
    as they were. *)
Theorem pause_resume_frame (sp log_id : Z) (db : DB) (l : FlightLog.t) :
  flight_logs db !! log_id = Some l →
  FlightLog.pilot_id l = sp →
  pause_flight (Some sp) log_id db
  = (Json 200 FlightPaused,
     mkDB (pilots db)
       (<[log_id :=
            FlightLog.mk (FlightLog.pilot_id l) (FlightLog.flight_number l)
              (FlightLog.aircraft_type l) (FlightLog.departure_airport l)
              (FlightLog.arrival_airport l) (FlightLog.cargo_type l)
              (FlightLog.departure_time l) (FlightLog.flight_duration l)
              Paused (FlightLog.created_at l) (FlightLog.completed_at l)]>
          (flight_logs db)))
  ∧ resume_flight (Some sp) log_id db
    = (Json 200 FlightResumed,
       mkDB (pilots db)
         (<[log_id :=
              FlightLog.mk (FlightLog.pilot_id l) (FlightLog.flight_number l)
                (FlightLog.aircraft_type l) (FlightLog.departure_airport l)
                (FlightLog.arrival_airport l) (FlightLog.cargo_type l)
                (FlightLog.departure_time l) (FlightLog.flight_duration l)
                InProgress (FlightLog.created_at l)
                (FlightLog.completed_at l)]>
            (flight_logs db))).
Proof.
  intros Hl Ho. split.
  - by rewrite (pause_flight_authorized sp log_id db l).
  - by rewrite (resume_flight_authorized sp log_id db l).
Qed.

Lemma pause_resume_frame_witness :
  pause_flight (Some 1) 1 sample_db_flying
  = (Json 200 FlightPaused,
     mkDB (pilots sample_db_flying)
       (<[1 := FlightLog.mk 1 (Py.lit "GTI_42") (Py.lit "747-8F")
                 (Py.lit "KJFK") (Py.lit "EGLL") (Py.lit "Humanitarian Aid")
                 1704067200 0 Paused 5 None]>
          (flight_logs sample_db_flying)))
  ∧ resume_flight (Some 1) 1 sample_db_flying
    = (Json 200 FlightResumed,
       mkDB (pilots sample_db_flying)
         (<[1 := FlightLog.mk 1 (Py.lit "GTI_42") (Py.lit "747-8F")
                   (Py.lit "KJFK") (Py.lit "EGLL")
                   (Py.lit "Humanitarian Aid") 1704067200 0 InProgress 5
                   None]>
            (flight_logs sample_db_flying))).
Proof.
  apply (pause_resume_frame 1 1 sample_db_flying (sample_log "GTI_42" 5)).
  - vm_compute. reflexivity.
  - reflexivity.
Defined.

(** *** Leaving [Completed] (C3) *)

(** C3, as stated, fails: an authorized pause on a completed log sets its
    status to [Paused]. *)
Lemma completed_not_terminal :
  FlightLog.status <$> flight_logs sample_db_completed !! 1 = Some Completed
  ∧ FlightLog.status
      <$> flight_logs (snd (pause_flight (Some 1) 1 sample_db_completed))
          !! 1
    = Some Paused.
Proof. split; vm_compute; reflexivity. Qed.

(** C3, amended: no [end] request moves a completed log out of [Completed],
    and a pause or resume by anyone but the owner leaves the database as it
    was; but a pause by the owner sets a completed log to [Paused] and a
    resume by the owner sets it to [InProgress]. *)
Theorem completed_transitions (log_id : Z) (db : DB) (l : FlightLog.t) :
  flight_logs db !! log_id = Some l →
  FlightLog.status l = Completed →
  (∀ s k duration now,
     FlightLog.status
       <$> flight_logs (snd (end_flight s k duration now db)) !! log_id
     = Some Completed)
  ∧ (∀ s, s ≠ Some (FlightLog.pilot_id l) →
       snd (pause_flight (clear_invalid_sessions db s) log_id db) = db
       ∧ snd (resume_flight (clear_invalid_sessions db s) log_id db) = db)
  ∧ FlightLog.status
      <$> flight_logs
            (snd (pause_flight (Some (FlightLog.pilot_id l)) log_id db))
          !! log_id
    = Some Paused
  ∧ FlightLog.status
      <$> flight_logs
            (snd (resume_flight (Some (FlightLog.pilot_id l)) log_id db))
          !! log_id
    = Some InProgress.
Proof.
  intros Hl Hc. split; [| split; [| split]].
  - intros s k duration now.
    destruct (end_flight_effect s k duration now db)
      as [-> | (l0 & pilot & h & Hl0 & _ & _ & _ & ->)].
    + by rewrite Hl; cbn; rewrite Hc.
    + cbn [put_pilot put_flight_log flight_logs].
      destruct (decide (k = log_id)) as [-> | Hne].
      * by rewrite lookup_insert_eq.
      * rewrite lookup_insert_ne by done. by rewrite Hl; cbn; rewrite Hc.
  - intros s Hs.
    destruct (pause_flight_effect (clear_invalid_sessions db s) log_id db)
      as [Hp | (l1 & Hl1 & Hs1 & _)];
    destruct (resume_flight_effect (clear_invalid_sessions db s) log_id db)
      as [Hr | (l2 & Hl2 & Hs2 & _)]; try done;
    exfalso; apply Hs;
    unfold clear_invalid_sessions in *; repeat case_match; congruence.
  - rewrite (pause_flight_authorized _ log_id db l) by done.
    cbn [snd put_flight_log flight_logs]. by rewrite lookup_insert_eq.
  - rewrite (resume_flight_authorized _ log_id db l) by done.
    cbn [snd put_flight_log flight_logs]. by rewrite lookup_insert_eq.
Qed.

Lemma completed_transitions_witness :
  (∀ s k duration now,
     FlightLog.status
       <$> flight_logs (snd (end_flight s k duration now sample_db_completed))
           !! 1
     = Some Completed)
  ∧ (∀ s,
       s ≠ Some (FlightLog.pilot_id
                   (ended_log 3600 3605 (sample_log "GTI_42" 5))) →
       snd (pause_flight (clear_invalid_sessions sample_db_completed s) 1
              sample_db_completed) = sample_db_completed
       ∧ snd (resume_flight (clear_invalid_sessions sample_db_completed s) 1
                sample_db_completed) = sample_db_completed)
  ∧ FlightLog.status
      <$> flight_logs
            (snd (pause_flight
                    (Some (FlightLog.pilot_id
                             (ended_log 3600 3605 (sample_log "GTI_42" 5))))
                    1 sample_db_completed))
          !! 1
    = Some Paused
  ∧ FlightLog.status
      <$> flight_logs
            (snd (resume_flight
                    (Some (FlightLog.pilot_id
                             (ended_log 3600 3605 (sample_log "GTI_42" 5))))
                    1 sample_db_completed))
          !! 1
    = Some InProgress.
Proof.
  apply (completed_transitions 1 sample_db_completed
           (ended_log 3600 3605 (sample_log "GTI_42" 5))).
  - vm_compute. reflexivity.
  - reflexivity.
Defined.

(** ** Runs *)

Section Runs.

Variable fromisoformat : Py.str → option datetime.
Variable upper : Py.str → Py.str.


(** A request leaves the log table as it was, or writes one row: a new
    log, or an existing log paused or resumed (by a pause or resume
    request), or an existing log ended (by an end request). *)
Lemma handle_logs (r : request) (db : DB) :
  flight_logs (snd (handle fromisoformat upper r db)) = flight_logs db
  ∨ (∃ nl, never_ended nl ∧ gti_prefixed (FlightLog.flight_number nl)
           ∧ flight_logs (snd (handle fromisoformat upper r db))
             = <[next_id (flight_logs db) := nl]> (flight_logs db))
  ∨ (∃ k l st, ¬ not_pause_resume r ∧ (st = Paused ∨ st = InProgress)
               ∧ flight_logs db !! k = Some l
               ∧ flight_logs (snd (handle fromisoformat upper r db))
                 = <[k := FlightLog.set_status st l]> (flight_logs db))
  ∨ (∃ k l d now, ¬ not_end r
                  ∧ flight_logs db !! k = Some l
                  ∧ flight_logs (snd (handle fromisoformat upper r db))
                    = <[k := ended_log d now l]> (flight_logs db)).
Proof.
  destruct r as [s m form now | s k | s k | s k duration now | s item_id];
    cbn [handle].
  - destruct (add_flight_log_effect fromisoformat upper
                (clear_invalid_sessions db s) m form now db)
      as [-> | (nl & sp & pilot & _ & _ & Ht & _ & ->)]; [by left |].
    right; left. exists nl.
    apply try_add_flight_log_Created in Ht as (Hs & Hc & _ & _ & Hg).
    split; [| done]. split; [done | by rewrite Hs].
  - destruct (pause_flight_effect (clear_invalid_sessions db s) k db)
      as [-> | (l & Hl & _ & ->)]; [by left |].
    right; right; left. exists k, l, Paused. repeat split; auto.
  - destruct (resume_flight_effect (clear_invalid_sessions db s) k db)
      as [-> | (l & Hl & _ & ->)]; [by left |].
    right; right; left. exists k, l, InProgress. repeat split; auto.
  - destruct (end_flight_effect (clear_invalid_sessions db s) k duration now
                db)
      as [-> | (l & pilot & h & Hl & _ & _ & _ & ->)]; [by left |].
    right; right; right. exists k, l, (default 0 duration), now.
    repeat split; auto.
  - left. apply purchase_logs.
Qed.

(** A property of the log table that every admitted request keeps holds
    after a run of admitted requests. *)
Lemma run_logs_invariant (I : gmap Z FlightLog.t → Prop)
    (ok : request → Prop) :
  (∀ r db, ok r → I (flight_logs db) →
           I (flight_logs (snd (handle fromisoformat upper r db)))) →
  ∀ rs db, Forall ok rs → I (flight_logs db) →
           I (flight_logs (run fromisoformat upper rs db)).
Proof.
  intros Hstep rs. induction rs as [| r rs IH]; intros db Hok HI; [done |].
  inversion Hok; subst. simpl. apply IH; [done |]. by apply Hstep.
Qed.




Lemma handle_gti_prefixed (r : request) (db : DB) :
  True →
  map_Forall (λ _ l, gti_prefixed (FlightLog.flight_number l))
    (flight_logs db) →
  map_Forall (λ _ l, gti_prefixed (FlightLog.flight_number l))
    (flight_logs (snd (handle fromisoformat upper r db))).
Proof.
  intros _ HI.
  destruct (handle_logs r db)
    as [-> | [(nl & _ & Hg & ->)
           | [(k & l & st & _ & Hst & Hl & ->)
             | (k & l & d & now & _ & Hl & ->)]]]; [done | | |].
  - by apply map_Forall_insert_2.
  - apply map_Forall_insert_2; [| done]. apply (HI k l Hl).
  - apply map_Forall_insert_2; [| done]. apply (HI k l Hl).
Qed.


End Runs.

(** *** [completed_at] and [Completed] (C2) *)




(** *** Monotone ledger (C8) *)

(** C8, as stated, fails: one [end] request with a duration of -3600
    seconds lowers the pilot's hours from 0 to -1. *)
Lemma end_negative_duration_lowers_hours :
  Forall is_end [ReqEnd (Some 1) 1 (Some (-3600)) 3605]
  ∧ Pilot.hours <$> pilots sample_db_flying !! 1 = Some 0
  ∧ Pilot.hours
      <$> pilots
            (run sample_fromisoformat sample_upper
               [ReqEnd (Some 1) 1 (Some (-3600)) 3605] sample_db_flying)
          !! 1
    = Some (-1).
Proof.
  split; [by repeat constructor |]. split; vm_compute; reflexivity.
Qed.

(** C8, amended: over every sequence of [end] requests, each pilot's
    completed flights and cargo delivered never decrease, whatever the
    durations; and the hours never decrease when no reported duration is
    negative. *)
Theorem end_only_monotone (fromisoformat : Py.str → option datetime)
    (upper : Py.str → Py.str) (rs : list request) (db : DB) (pid : Z)
    (p : Pilot.t) :
  Forall is_end rs →
  pilots db !! pid = Some p →
  ∃ p', pilots (run fromisoformat upper rs db) !! pid = Some p'
        ∧ Pilot.completed_flights p <= Pilot.completed_flights p'
        ∧ Pilot.cargo_delivered p <= Pilot.cargo_delivered p'
        ∧ (Forall duration_nonneg rs → Pilot.hours p <= Pilot.hours p').
Proof.
  intros Hrs. revert db p.
  induction Hrs as [| r rs Hr _ IH]; intros db p Hp.
  - exists p. simpl. repeat split; [done | lia | lia | lia].
  - destruct r as [| | | s k duration now |]; try done.
    cbn [run handle].
    destruct (end_flight_effect (clear_invalid_sessions db s) k duration now
                db)
      as [-> | (l & pilot & h & Hl & Hpl & _ & Hh & ->)].
    + destruct (IH db p Hp) as (p' & Hp' & Hf & Hc & Hhours).
      exists p'. repeat split; try done.
      intros Hd. apply Hhours. by inversion Hd.
    + destruct (decide (FlightLog.pilot_id l = pid)) as [E | Hne].
      * rewrite E in Hpl. rewrite Hp in Hpl. injection Hpl as <-.
        edestruct (IH (put_pilot (FlightLog.pilot_id l) (rewarded_pilot h p)
                         (put_flight_log k
                            (ended_log (default 0 duration) now l) db))
                      (rewarded_pilot h p))
          as (p' & Hp' & Hf & Hc & Hhours).
        { rewrite E. apply lookup_insert_eq. }
        exists p'. cbn in Hf, Hc, Hhours.
        split; [done |]. split; [lia |]. split; [lia |].
        intros Hd. inversion Hd as [| ? ? Hd1 Hd2]; subst.
        specialize (Hhours Hd2).
        pose proof (int_flight_hours_nonneg _ _ Hd1 Hh). lia.
      * edestruct (IH (put_pilot (FlightLog.pilot_id l)
                         (rewarded_pilot h pilot)
                         (put_flight_log k
                            (ended_log (default 0 duration) now l) db)) p)
          as (p' & Hp' & Hf & Hc & Hhours).
        { cbn. by rewrite lookup_insert_ne. }
        exists p'. repeat split; try done.
        intros Hd. apply Hhours. by inversion Hd.
Qed.

Lemma end_only_monotone_witness :
  ∃ p',
    pilots
      (run sample_fromisoformat sample_upper
         [ReqEnd (Some 1) 1 (Some 5399) 3605;
          ReqEnd (Some 1) 1 (Some 7200) 3700] sample_db_flying) !! 1
    = Some p'
    ∧ Pilot.completed_flights sample_pilot <= Pilot.completed_flights p'
    ∧ Pilot.cargo_delivered sample_pilot <= Pilot.cargo_delivered p'
    ∧ (Forall duration_nonneg
         [ReqEnd (Some 1) 1 (Some 5399) 3605;
          ReqEnd (Some 1) 1 (Some 7200) 3700] →
       Pilot.hours sample_pilot <= Pilot.hours p').
Proof.
  apply (end_only_monotone sample_fromisoformat sample_upper
           [ReqEnd (Some 1) 1 (Some 5399) 3605;
            ReqEnd (Some 1) 1 (Some 7200) 3700]
           sample_db_flying 1 sample_pilot).
  - repeat constructor.
  - vm_compute. reflexivity.
Defined.

(** *** Flight numbers (C5) *)

Lemma gti_prefixed_check (fn : Py.str) :
  gti_prefixed fn
  ↔ negb (Py.startswith fn (Py.lit "GTI_")) || (Py.len fn <? 5) = false.
Proof.
  unfold gti_prefixed. rewrite orb_false_iff, negb_false_iff, Z.ltb_ge.
  done.
Qed.

(** C5, as stated, fails: the flight number [GTI_X], which has no digit, is
    accepted and stored. *)
Lemma flight_number_without_digits_accepted :
  add_flight_log sample_fromisoformat sample_upper (Some 1) POST
    (sample_form "GTI_X") 5 sample_db
  = (Redirect (ep_flight_tracker 1) (Some FlightLogCreated),
     put_flight_log 1 (sample_log "GTI_X" 5) sample_db)
  ∧ ¬ gti_digits (Py.lit "GTI_X").
Proof.
  split; [vm_compute; reflexivity |].
  intros (ds & E & _ & Hd). vm_compute in E. injection E as <-.
  inversion Hd as [| ? ? H _]; subst. unfold is_digit in H. lia.
Qed.

(** C5, amended: creation accepts a flight number if and only if it starts
    with [GTI_] and has at least 5 characters.  A posted flight number that
    does not is answered with the flash of the bad flight number and no
    record is created; one that does, in a form whose other fields are
    present and whose departure time parses, creates the log under a new
    key.  [ABC_1] is turned away, [GTI_42] is let through, and every stored
    log of a database reached from one with no flight log has such a flight
    number. *)
Theorem add_flight_log_flight_number
    (fromisoformat : Py.str → option datetime) (upper : Py.str → Py.str) :
  (∀ sp pilot form now db fn,
     pilots db !! sp = Some pilot →
     form_flight_number form = Some fn →
     (¬ gti_prefixed fn →
        add_flight_log fromisoformat upper (Some sp) POST form now db
        = (Redirect ep_add_flight_log (Some BadFlightNumber), db))
     ∧ (gti_prefixed fn →
        ∀ aircraft_type cargo_type departure_time_str departure_time,
          form_aircraft_type form = Some aircraft_type →
          form_cargo_type form = Some cargo_type →
          form_departure_time form = Some departure_time_str →
          fromisoformat departure_time_str = Some departure_time →
          add_flight_log fromisoformat upper (Some sp) POST form now db
          = (Redirect (ep_flight_tracker (next_id (flight_logs db)))
               (Some FlightLogCreated),
             put_flight_log (next_id (flight_logs db))
               (FlightLog.mk sp fn aircraft_type
                  (upper (default [] (form_departure_airport form)))
                  (upper (default [] (form_arrival_airport form)))
                  cargo_type departure_time 0 InProgress now None) db)
          ∧ flight_logs db !! next_id (flight_logs db) = None))
  ∧ ¬ gti_prefixed (Py.lit "ABC_1")
  ∧ gti_prefixed (Py.lit "GTI_42")
  ∧ (∀ db, reachable fromisoformat upper db →
       map_Forall (λ _ l, gti_prefixed (FlightLog.flight_number l))
         (flight_logs db)).
Proof.
  split; [| split; [| split]].
  - intros sp pilot form now db fn Hp Hfn. split.
    + intros Hbad. unfold add_flight_log, try_add_flight_log.
      rewrite Hp, Hfn. cbn [fmap option_fmap option_map].
      destruct (negb (Py.startswith fn (Py.lit "GTI_")) || (Py.len fn <? 5))
        eqn:E; [done |].
      exfalso. by apply Hbad, gti_prefixed_check.
    + intros Hok aircraft_type cargo_type dts dt Ha Hc Hd Hf.
      split; [| apply next_id_fresh].
      apply gti_prefixed_check in Hok.
      unfold add_flight_log, try_add_flight_log.
      rewrite Hp, Hfn, Hok, Ha, Hc, Hd.
      cbn [fmap option_fmap option_map mbind option_bind]. by rewrite Hf.
  - intros [H _]. by vm_compute in H.
  - split; vm_compute; [reflexivity | discriminate].
  - intros db (db0 & rs & H0 & ->).
    apply (run_logs_invariant fromisoformat upper
             (map_Forall (λ _ l, gti_prefixed (FlightLog.flight_number l)))
             (λ _, True)).
    + apply handle_gti_prefixed.
    + by apply Forall_true.
    + rewrite H0. apply map_Forall_empty.
Qed.

Lemma add_flight_log_flight_number_witness :
  add_flight_log sample_fromisoformat sample_upper (Some 1) POST
    (sample_form "ABC_1") 5 sample_db
  = (Redirect ep_add_flight_log (Some BadFlightNumber), sample_db)
  ∧ add_flight_log sample_fromisoformat sample_upper (Some 1) POST
      (sample_form "GTI_42") 5 sample_db
    = (Redirect (ep_flight_tracker 1) (Some FlightLogCreated),
       sample_db_flying).
Proof.
  pose proof (add_flight_log_flight_number sample_fromisoformat sample_upper)
    as (Hform & Habc & Hgti & _).
  assert (Hp : pilots sample_db !! 1 = Some sample_pilot)
    by (vm_compute; reflexivity).
  split.
  - exact (proj1 (Hform 1 sample_pilot (sample_form "ABC_1") 5 sample_db
                    (Py.lit "ABC_1") Hp eq_refl) Habc).
  - exact (proj1 (proj2 (Hform 1 sample_pilot (sample_form "GTI_42") 5
                           sample_db (Py.lit "GTI_42") Hp eq_refl) Hgti
                    (Py.lit "747-8F") (Py.lit "Humanitarian Aid")
                    (Py.lit "2024-01-01T00:00:00") 1704067200
                    eq_refl eq_refl eq_refl eq_refl)).
Defined.

(** *** Purchase (C6) *)

(** The ids of the catalog are distinct: looking an item up by its id
    finds that item. *)
Lemma find_item_catalog (item : shop_item) :
  item ∈ catalog → find_item (item_id item) SHOP_ITEMS = Some item.
Proof.
  revert item. apply Forall_forall.
  repeat (constructor; [vm_compute; reflexivity |]). constructor.
Qed.

Lemma find_item_absent (id : Py.str) :
  (∀ it, it ∈ catalog → item_id it ≠ id) →
  find_item id SHOP_ITEMS = None.
Proof.
  intros H. destruct (find_item id SHOP_ITEMS) as [item |] eqn:E; [| done].
  apply find_item_Some in E as [Hin Hid]. by destruct (H item Hin).
Qed.

Lemma add_aircraft_ledger (id : Py.str) (p : Pilot.t) :
  Pilot.balance (Pilot.add_aircraft id p) = Pilot.balance p
  ∧ Pilot.hours (Pilot.add_aircraft id p) = Pilot.hours p
  ∧ Pilot.completed_flights (Pilot.add_aircraft id p)
    = Pilot.completed_flights p
  ∧ Pilot.cargo_delivered (Pilot.add_aircraft id p)
    = Pilot.cargo_delivered p.
Proof. unfold Pilot.add_aircraft. by case_match. Qed.

(** C6: for a pilot in session, [purchase] answers [ItemNotFound] when no
    catalog item has the id; for an item of the catalog it answers
    [AlreadyOwned] when the id is in the pilot's owned list, otherwise
    [InsufficientFunds] exactly when the balance is below the price, and in
    these three cases the database is left as it was; otherwise the purchase
    succeeds and the row stored for the pilot has the balance down by the
    price (at 0 when it was equal to the price), the id appended to the
    owned list and the rest of the ledger unchanged, while the other pilots
    and the flight logs stay as they were. *)
Theorem purchase_outcomes (sp : Z) (id : Py.str) (db : DB)
    (pilot : Pilot.t) :
  pilots db !! sp = Some pilot →
  ((∀ it, it ∈ catalog → item_id it ≠ id) →
     purchase (Some sp) id db = (Redirect ep_shop (Some ItemNotFound), db))
  ∧ (∀ item, item ∈ catalog → item_id item = id →
       (id ∈ Pilot.get_aircraft_list pilot →
          purchase (Some sp) id db
          = (Redirect ep_shop (Some (AlreadyOwned (item_name item))), db))
       ∧ (id ∉ Pilot.get_aircraft_list pilot →
          (Pilot.balance pilot < item_price item →
             purchase (Some sp) id db
             = (Redirect ep_shop
                  (Some (InsufficientFunds (item_price item)
                           (Pilot.balance pilot))), db))
          ∧ ((∃ price balance,
                fst (purchase (Some sp) id db)
                = Redirect ep_shop (Some (InsufficientFunds price balance)))
             ↔ Pilot.balance pilot < item_price item)
          ∧ (item_price item <= Pilot.balance pilot →
             ∃ pilot',
               purchase (Some sp) id db
               = (Redirect ep_shop
                    (Some (Purchased (item_name item) (item_price item))),
                  put_pilot sp pilot' db)
               ∧ pilots (snd (purchase (Some sp) id db)) !! sp = Some pilot'
               ∧ (∀ k, k ≠ sp →
                    pilots (snd (purchase (Some sp) id db)) !! k
                    = pilots db !! k)
               ∧ flight_logs (snd (purchase (Some sp) id db))
                 = flight_logs db
               ∧ Pilot.balance pilot'
                 = Pilot.balance pilot - item_price item
               ∧ (Pilot.balance pilot = item_price item →
                  Pilot.balance pilot' = 0)
               ∧ Pilot.get_aircraft_list pilot'
                 = Pilot.get_aircraft_list pilot ++ [id]
               ∧ Pilot.hours pilot' = Pilot.hours pilot
               ∧ Pilot.completed_flights pilot'
                 = Pilot.completed_flights pilot
               ∧ Pilot.cargo_delivered pilot'
                 = Pilot.cargo_delivered pilot))).
Proof.
  intros Hp. split.
  - intros Habs. unfold purchase. by rewrite (find_item_absent id Habs).
  - intros item Hin <-.
    assert (Hclean : clean (item_id item)).
    { pose proof catalog_clean as Hc. rewrite Forall_forall in Hc. auto. }
    unfold purchase, Py.contains.
    rewrite (find_item_catalog item Hin), Hp.
    split.
    + intros Hown. by rewrite bool_decide_eq_true_2.
    + intros Hnot. rewrite bool_decide_eq_false_2 by done.
      destruct (Z.ltb_spec (Pilot.balance pilot) (item_price item))
        as [Hlt | Hge].
      * split; [done |]. split; [| lia].
        split; [by intros _ | intros _; cbn; eauto].
      * split; [lia |]. split.
        { split; [| lia]. by intros (? & ? & ?). }
        intros _. eexists. split; [reflexivity |].
        cbn [snd put_pilot pilots flight_logs].
        split; [by rewrite lookup_insert_eq |].
        split; [by intros k Hk; rewrite lookup_insert_ne |].
        split; [done |].
        destruct (add_aircraft_ledger (item_id item)
                    (Pilot.set_balance
                       (Pilot.balance pilot - item_price item) pilot))
          as (Hb & Hh & Hf & Hc).
        rewrite Hb, Hh, Hf, Hc. cbn.
        split; [done |]. split; [lia |]. split; [| done].
        by apply (get_aircraft_list_add
                    (Pilot.set_balance
                       (Pilot.balance pilot - item_price item) pilot)).
Qed.

(** The seeded pilot, with a balance of 45000, buys the Boeing 747-8F at
    45000 and the stored row is left with a balance of 0. *)
Lemma purchase_outcomes_witness :
  ∃ pilot',
    purchase (Some 1) (Py.lit "boeing_747") sample_db
    = (Redirect ep_shop
         (Some (Purchased (Py.lit "Boeing 747-8F") 45000)),
       put_pilot 1 pilot' sample_db)
    ∧ pilots (snd (purchase (Some 1) (Py.lit "boeing_747") sample_db)) !! 1
      = Some pilot'
    ∧ Pilot.balance pilot' = 0
    ∧ Pilot.get_aircraft_list pilot'
      = [Py.lit "boeing_767"; Py.lit "boeing_777"; Py.lit "boeing_747"].
Proof.
  assert (Hp : pilots sample_db !! 1 = Some sample_pilot)
    by (vm_compute; reflexivity).
  assert (Hin : mk_item (Py.lit "boeing_747") (Py.lit "Boeing 747-8F") 45000
                  (Py.lit "Aircraft Access") ∈ catalog).
  { apply (bool_decide_unpack _). vm_compute. exact I. }
  assert (Hnot : Py.lit "boeing_747" ∉ Pilot.get_aircraft_list sample_pilot).
  { apply (bool_decide_unpack _). vm_compute. exact I. }
  destruct (proj2 (proj2 (proj2 (proj2 (purchase_outcomes 1
              (Py.lit "boeing_747") sample_db sample_pilot Hp) _ Hin eq_refl)
              Hnot)) ltac:(vm_compute; discriminate))
    as (pilot' & E & Hrow & _ & _ & _ & Hzero & Hlist & _).
  exists pilot'. split; [exact E |]. split; [exact Hrow |].
  split; [by apply Hzero |]. exact Hlist.
Defined.

(** *** The owned-aircraft encoding (C10) *)

(** C10, as stated, fails: the id [" x"] has no comma, and after
    [add_aircraft] it is not in [get_aircraft_list], which holds ["x"]
    instead. *)
Lemma add_aircraft_padded_id_not_member :
  (44%N ∉ Py.lit " x")
  ∧ (Py.lit " x"
     ∉ Pilot.get_aircraft_list
         (Pilot.add_aircraft (Py.lit " x") sample_pilot)).
Proof.
  split; apply (bool_decide_unpack _); vm_compute; exact I.
Qed.

(** C10, amended: for every aircraft id that is not empty, has no comma and
    no leading or trailing whitespace, the id is in [get_aircraft_list]
    after [add_aircraft]; and for every id already in [get_aircraft_list],
    [add_aircraft] changes nothing. *)
Theorem add_aircraft_roundtrip (id : Py.str) (self : Pilot.t) :
  (clean id →
     id ∈ Pilot.get_aircraft_list (Pilot.add_aircraft id self))
  ∧ (id ∈ Pilot.get_aircraft_list self →
     Pilot.add_aircraft id self = self).
Proof.
  split.
  - intros Hid.
    destruct (decide (id ∈ Pilot.get_aircraft_list self)) as [Hin | Hnot].
    + unfold Pilot.add_aircraft, Py.contains.
      by rewrite bool_decide_eq_true_2.
    + rewrite get_aircraft_list_add by done.
      apply elem_of_app. right. by left.
  - intros Hin. unfold Pilot.add_aircraft, Py.contains.
    by rewrite bool_decide_eq_true_2.
Qed.

Lemma add_aircraft_roundtrip_witness :
  Py.lit "boeing_747"
  ∈ Pilot.get_aircraft_list
      (Pilot.add_aircraft (Py.lit "boeing_747") sample_pilot)
  ∧ Pilot.add_aircraft (Py.lit "boeing_767") sample_pilot = sample_pilot.
Proof.
  split.
  - apply (proj1 (add_aircraft_roundtrip (Py.lit "boeing_747") sample_pilot)).
    apply clean_dec_true. vm_compute. reflexivity.
  - apply (proj2 (add_aircraft_roundtrip (Py.lit "boeing_767") sample_pilot)).
    apply (bool_decide_unpack _). vm_compute. exact I.
Defined.

(** ** Further properties of the code *)

(** *** The owned-aircraft list *)

Lemma keep_space (w : Py.str) : keep (32%N :: w) = keep w.
Proof. reflexivity. Qed.

Lemma omap_keep_split_space (s : Py.str) :
  omap keep (Py.split 44 (32%N :: s)) = omap keep (Py.split 44 s).
Proof.
  destruct (split_cons_neq 44%N 32%N s) as (w & ws & -> & ->); [done |].
  change (omap keep ((32%N :: w) :: ws))
    with (match keep (32%N :: w) with
          | Some y => y :: omap keep ws
          | None => omap keep ws
          end).
  by rewrite keep_space.
Qed.

(** The truthiness test of [get_aircraft_list] only saves work: the empty
    string decodes to the empty list either way. *)
Lemma get_aircraft_list_omap (self : Pilot.t) :
  Pilot.get_aircraft_list self
  = omap keep (Py.split 44 (Pilot.aircraft_owned self)).
Proof.
  rewrite get_aircraft_list_keep.
  by destruct (Pilot.aircraft_owned self).
Qed.

Lemma join_cons_app (x : Py.str) (l : list Py.str) (y : Py.str) :
  Py.join (Py.lit ", ") (x :: l ++ [y])
  = x ++ 44%N :: 32%N :: Py.join (Py.lit ", ") (l ++ [y]).
Proof. by destruct l. Qed.

Lemma decode_join_last (cur : list Py.str) (id : Py.str) :
  Forall clean cur →
  omap keep (Py.split 44 (Py.join (Py.lit ", ") (cur ++ [id])))
  = cur ++ omap keep (Py.split 44 id).
Proof.
  induction 1 as [| c cs Hc _ IH]; [done |].
  rewrite <- app_comm_cons, join_cons_app.
  rewrite split_app_sep by apply Hc.
  rewrite (omap_cons_Some _ _ _ c) by by apply keep_clean.
  by rewrite omap_keep_split_space, IH.
Qed.

(** X1: whatever string is stored in [aircraft_owned], every entry that
    [get_aircraft_list] returns is non-empty, has no comma and has no
    leading or trailing whitespace. *)
Theorem aircraft_list_entries_clean (self : Pilot.t) (x : Py.str) :
  x ∈ Pilot.get_aircraft_list self →
  x ≠ [] ∧ Py.strip x = x ∧ 44%N ∉ x.
Proof.
  intros Hx. pose proof (get_aircraft_list_clean self) as Hall.
  rewrite Forall_forall in Hall. exact (Hall x Hx).
Qed.

Lemma aircraft_list_entries_clean_witness :
  Py.lit "boeing_777" ≠ []
  ∧ Py.strip (Py.lit "boeing_777") = Py.lit "boeing_777"
  ∧ 44%N ∉ Py.lit "boeing_777".
Proof.
  apply (aircraft_list_entries_clean sample_pilot (Py.lit "boeing_777")).
  apply (bool_decide_unpack _). vm_compute. exact I.
Defined.

(** X2: the encoding is stable: writing back [', '.join] of the decoded
    list and decoding again gives the same list, for every stored
    string. *)
Theorem aircraft_list_reencode (self : Pilot.t) :
  Pilot.get_aircraft_list
    (Pilot.set_aircraft_owned
       (Py.join (Py.lit ", ") (Pilot.get_aircraft_list self)) self)
  = Pilot.get_aircraft_list self.
Proof.
  destruct (Pilot.get_aircraft_list self) as [| x l] eqn:E; [done |].
  apply get_aircraft_list_join; [done |].
  rewrite <- E. apply get_aircraft_list_clean.
Qed.

(** X3: [add_aircraft] of an id that is not yet listed appends the fields
    of the id, not the id: the id is cut at its commas, each field is
    stripped, and the empty fields are dropped.  So an id with a comma
    becomes several entries, a padded id is stored stripped, and an empty
    or blank id adds nothing. *)
Theorem add_aircraft_appends_fields (id : Py.str) (self : Pilot.t) :
  id ∉ Pilot.get_aircraft_list self →
  Pilot.get_aircraft_list (Pilot.add_aircraft id self)
  = Pilot.get_aircraft_list self
    ++ omap (λ item, let s := Py.strip item in
                     if Py.truthy s then Some s else None)
         (Py.split 44 id).
Proof.
  intros Hnot. unfold Pilot.add_aircraft, Py.contains.
  rewrite bool_decide_eq_false_2 by done. cbn [negb].
  rewrite get_aircraft_list_omap.
  cbn [Pilot.aircraft_owned Pilot.set_aircraft_owned].
  apply decode_join_last, get_aircraft_list_clean.
Qed.

Lemma add_aircraft_appends_fields_witness :
  Pilot.get_aircraft_list (Pilot.add_aircraft (Py.lit "a, ,b ") sample_pilot)
  = Pilot.get_aircraft_list sample_pilot
    ++ omap (λ item, let s := Py.strip item in
                     if Py.truthy s then Some s else None)
         (Py.split 44 (Py.lit "a, ,b ")).
Proof.
  apply (add_aircraft_appends_fields (Py.lit "a, ,b ") sample_pilot).
  apply (bool_decide_unpack _). vm_compute. exact I.
Defined.

(** X4: [add_aircraft] of a clean id never creates a duplicate: a list
    without repetition stays without repetition. *)
Theorem add_aircraft_no_duplicates (id : Py.str) (self : Pilot.t) :
  clean id →
  NoDup (Pilot.get_aircraft_list self) →
  NoDup (Pilot.get_aircraft_list (Pilot.add_aircraft id self)).
Proof.
  intros Hid Hnd.
  destruct (decide (id ∈ Pilot.get_aircraft_list self)) as [Hin | Hnot].
  - unfold Pilot.add_aircraft, Py.contains.
    by rewrite bool_decide_eq_true_2.
  - rewrite get_aircraft_list_add by done.
    apply NoDup_app. split; [done |]. split; [| apply NoDup_singleton].
    intros x Hx Hx'. apply list_elem_of_singleton in Hx'. by subst.
Qed.

Lemma add_aircraft_no_duplicates_witness :
  NoDup (Pilot.get_aircraft_list
           (Pilot.add_aircraft (Py.lit "boeing_747") sample_pilot)).
Proof.
  apply (add_aircraft_no_duplicates (Py.lit "boeing_747") sample_pilot).
  - apply clean_dec_true. vm_compute. reflexivity.
  - apply (bool_decide_unpack _). vm_compute. exact I.
Defined.

(** *** Purchases and the inventory *)

Lemma catalog_prices_positive : Forall (λ it, 0 < item_price it) catalog.
Proof. repeat (constructor; [reflexivity |]). constructor. Qed.

(** A purchase leaves the database as it was, or writes the row of the
    buyer: the price taken off, the id added. *)
Lemma purchase_effect (s : session) (id : Py.str) (db : DB) :
  snd (purchase s id db) = db
  ∨ ∃ sp pilot item,
      s = Some sp ∧ pilots db !! sp = Some pilot
      ∧ item ∈ catalog ∧ item_id item = id
      ∧ (id ∉ Pilot.get_aircraft_list pilot)
      ∧ item_price item <= Pilot.balance pilot
      ∧ snd (purchase s id db)
        = put_pilot sp
            (Pilot.add_aircraft id
               (Pilot.set_balance (Pilot.balance pilot - item_price item)
                  pilot)) db.
Proof.
  unfold purchase, Py.contains. destruct s as [sp |]; [| by left].
  destruct (find_item id SHOP_ITEMS) as [item |] eqn:Ei; [| by left].
  destruct (pilots db !! sp) as [pilot |] eqn:Ep; [| by left].
  case_bool_decide as Hown; [by left |].
  destruct (Z.ltb_spec (Pilot.balance pilot) (item_price item)); [by left |].
  right. exists sp, pilot, item.
  apply find_item_Some in Ei as [Hin Hid]. by repeat split.
Qed.

(** X5: over every sequence of purchase requests, a pilot's balance never
    grows and never becomes negative if it was not, the owned list only
    grows at its end, hours, completed flights and cargo stay as they
    were, and no flight log is touched. *)
Theorem purchase_only_run (fromisoformat : Py.str → option datetime)
    (upper : Py.str → Py.str) (rs : list request) (db : DB) (pid : Z)
    (p : Pilot.t) :
  Forall is_purchase rs →
  pilots db !! pid = Some p →
  ∃ p', pilots (run fromisoformat upper rs db) !! pid = Some p'
        ∧ Pilot.balance p' <= Pilot.balance p
        ∧ (0 <= Pilot.balance p → 0 <= Pilot.balance p')
        ∧ (Pilot.get_aircraft_list p `prefix_of` Pilot.get_aircraft_list p')
        ∧ Pilot.hours p' = Pilot.hours p
        ∧ Pilot.completed_flights p' = Pilot.completed_flights p
        ∧ Pilot.cargo_delivered p' = Pilot.cargo_delivered p
        ∧ flight_logs (run fromisoformat upper rs db) = flight_logs db.
Proof.
  intros Hrs. revert db p.
  induction Hrs as [| r rs Hr _ IH]; intros db p Hp.
  - exists p. simpl. repeat split; try done; lia.
  - destruct r as [| | | | s id]; try done. cbn [run handle].
    destruct (purchase_effect (clear_invalid_sessions db s) id db)
      as [-> | (sp & pilot & item & _ & Hpl & Hin & Hid & Hnot & Hle & ->)];
      [by apply IH |].
    pose proof catalog_prices_positive as Hpos.
    rewrite Forall_forall in Hpos. specialize (Hpos item Hin).
    set (pilot1 := Pilot.add_aircraft id
                     (Pilot.set_balance
                        (Pilot.balance pilot - item_price item) pilot)).
    destruct (add_aircraft_ledger id
                (Pilot.set_balance (Pilot.balance pilot - item_price item)
                   pilot)) as (Hb & Hh & Hf & Hc).
    fold pilot1 in Hb, Hh, Hf, Hc. cbn in Hb, Hh, Hf, Hc.
    destruct (decide (sp = pid)) as [-> | Hne].
    + rewrite Hp in Hpl. injection Hpl as <-.
      destruct (IH (put_pilot pid pilot1 db) pilot1)
        as (p' & Hp' & Hbal & Hnn & Hpre & Hh' & Hf' & Hc' & Hlogs);
        [apply lookup_insert_eq |].
      exists p'. split; [done |].
      split; [lia |]. split; [lia |]. split.
      * etrans; [| exact Hpre]. subst pilot1.
        assert (Hcl : clean id).
        { pose proof catalog_clean as Hall. rewrite Forall_forall in Hall.
          rewrite <- Hid. by apply Hall. }
        rewrite (get_aircraft_list_add
                   (Pilot.set_balance (Pilot.balance p - item_price item) p))
          by done.
        by apply prefix_app_r.
      * repeat split; [congruence .. | exact Hlogs].
    + destruct (IH (put_pilot sp pilot1 db) p)
        as (p' & Hp' & Hrest); [cbn; by rewrite lookup_insert_ne |].
      exists p'. by split.
Qed.

Lemma purchase_only_run_witness :
  ∃ p',
    pilots
      (run sample_fromisoformat sample_upper
         [ReqPurchase (Some 1) (Py.lit "captain");
          ReqPurchase (Some 1) (Py.lit "boeing_747")] sample_db) !! 1
    = Some p'
    ∧ Pilot.balance p' <= Pilot.balance sample_pilot
    ∧ (0 <= Pilot.balance sample_pilot → 0 <= Pilot.balance p')
    ∧ (Pilot.get_aircraft_list sample_pilot
       `prefix_of` Pilot.get_aircraft_list p')
    ∧ Pilot.hours p' = Pilot.hours sample_pilot
    ∧ Pilot.completed_flights p' = Pilot.completed_flights sample_pilot
    ∧ Pilot.cargo_delivered p' = Pilot.cargo_delivered sample_pilot
    ∧ flight_logs
        (run sample_fromisoformat sample_upper
           [ReqPurchase (Some 1) (Py.lit "captain");
            ReqPurchase (Some 1) (Py.lit "boeing_747")] sample_db)
      = flight_logs sample_db.
Proof.
  apply (purchase_only_run sample_fromisoformat sample_upper
           [ReqPurchase (Some 1) (Py.lit "captain");
            ReqPurchase (Some 1) (Py.lit "boeing_747")]
           sample_db 1 sample_pilot).
  - repeat constructor.
  - vm_compute. reflexivity.
Defined.

Lemma owned_items_app (l1 l2 : list Py.str) :
  owned_items (l1 ++ l2) = owned_items l1 ++ owned_items l2.
Proof. unfold owned_items. apply bind_app. Qed.

Lemma owned_items_catalog (item : shop_item) :
  item ∈ catalog → owned_items [item_id item] = [item].
Proof.
  revert item. apply Forall_forall.
  repeat (constructor; [vm_compute; reflexivity |]). constructor.
Qed.

Lemma elem_of_concat {A} (x : A) (l : list A) (ls : list (list A)) :
  x ∈ l → l ∈ ls → x ∈ concat ls.
Proof.
  intros Hx. induction ls as [| l' ls IH]; [by intros ?%elem_of_nil |].
  intros [-> | Hl]%elem_of_cons; simpl; apply elem_of_app; auto.
Qed.

Lemma omap_find_in_category (id : Py.str) (it : shop_item)
    (items : list (Py.str * list shop_item)) :
  it ∈ omap (λ category : Py.str * list shop_item,
               find_in_category id category.2) items →
  it ∈ concat (snd <$> items) ∧ item_id it = id.
Proof.
  intros (category & Hc & Hf)%list_elem_of_omap.
  apply find_in_category_Some in Hf as [Hin Hid]. split; [| done].
  apply (elem_of_concat _ category.2); [done |].
  apply list_elem_of_fmap. by exists category.
Qed.

(** X6: the inventory shows exactly the catalog items whose id is in the
    owned list; an owned id that is not in the catalog shows nothing. *)
Theorem owned_items_spec (ids : list Py.str) (it : shop_item) :
  it ∈ owned_items ids ↔ it ∈ catalog ∧ item_id it ∈ ids.
Proof.
  unfold owned_items. rewrite list_elem_of_bind. split.
  - intros (id & Hit & Hid).
    apply omap_find_in_category in Hit as [Hin <-]. by split.
  - intros [Hin Hid]. exists (item_id it). split; [| done].
    pose proof (owned_items_catalog it Hin) as E.
    unfold owned_items in E. cbn [mbind list_bind] in E.
    rewrite app_nil_r in E. rewrite E. by left.
Qed.

(** X7: after a successful purchase the inventory of the buyer is the
    inventory before, followed by the item bought. *)
Theorem inventory_after_purchase (sp : Z) (db : DB) (pilot : Pilot.t)
    (item : shop_item) :
  pilots db !! sp = Some pilot →
  item ∈ catalog →
  item_id item ∉ Pilot.get_aircraft_list pilot →
  item_price item <= Pilot.balance pilot →
  ∃ pilot',
    inventory (Some sp) (snd (purchase (Some sp) (item_id item) db))
    = InventoryRender
        (owned_items (Pilot.get_aircraft_list pilot) ++ [item]) pilot'
    ∧ Pilot.balance pilot' = Pilot.balance pilot - item_price item.
Proof.
  intros Hp Hin Hnot Hle.
  assert (Hcl : clean (item_id item)).
  { pose proof catalog_clean as Hall. rewrite Forall_forall in Hall. auto. }
  unfold purchase, Py.contains.
  rewrite (find_item_catalog item Hin), Hp.
  rewrite bool_decide_eq_false_2 by done.
  destruct (Z.ltb_spec (Pilot.balance pilot) (item_price item)); [lia |].
  eexists. cbn [snd inventory put_pilot pilots].
  rewrite lookup_insert_eq. split.
  - f_equal.
    rewrite (get_aircraft_list_add
               (Pilot.set_balance (Pilot.balance pilot - item_price item)
                  pilot)) by done.
    rewrite owned_items_app. f_equal. by apply owned_items_catalog.
  - by destruct (add_aircraft_ledger (item_id item)
                   (Pilot.set_balance
                      (Pilot.balance pilot - item_price item) pilot))
      as (-> & _).
Qed.

Lemma inventory_after_purchase_witness :
  ∃ pilot',
    inventory (Some 1) (snd (purchase (Some 1) (Py.lit "captain") sample_db))
    = InventoryRender
        (owned_items (Pilot.get_aircraft_list sample_pilot)
         ++ [mk_item (Py.lit "captain") (Py.lit "Captain Certification")
               12000 (Py.lit "Role Upgrade")]) pilot'
    ∧ Pilot.balance pilot' = Pilot.balance sample_pilot - 12000.
Proof.
  apply (inventory_after_purchase 1 sample_db sample_pilot
           (mk_item (Py.lit "captain") (Py.lit "Captain Certification")
              12000 (Py.lit "Role Upgrade"))).
  - vm_compute. reflexivity.
  - apply (bool_decide_unpack _). vm_compute. exact I.
  - apply (bool_decide_unpack _). vm_compute. exact I.
  - vm_compute. discriminate.
Defined.

(** *** Creating a flight log *)

(** X8: [add_flight_log] never writes a pilot row and never changes or
    removes a flight log that is already there, whatever the session, the
    method and the form. *)
Theorem add_flight_log_frame (fromisoformat : Py.str → option datetime)
    (upper : Py.str → Py.str) (s : session) (m : method)
    (form : flight_form) (now : datetime) (db : DB) :
  pilots (snd (add_flight_log fromisoformat upper s m form now db))
  = pilots db
  ∧ ∀ k l, flight_logs db !! k = Some l →
           flight_logs
             (snd (add_flight_log fromisoformat upper s m form now db)) !! k
           = Some l.
Proof.
  destruct (add_flight_log_effect fromisoformat upper s m form now db)
    as [-> | (nl & sp & pilot & _ & _ & _ & _ & ->)]; [done |].
  split; [done |]. intros k l Hl. cbn [put_flight_log flight_logs].
  rewrite lookup_insert_ne; [done |].
  intros <-. by rewrite next_id_fresh in Hl.
Qed.

(** X9: a posted form without a flight number, or whose flight number
    passes the check but whose departure time is missing or does not
    parse, is answered with the error flash on the form page, and no record
    is created. *)
Theorem add_flight_log_incomplete_form
    (fromisoformat : Py.str → option datetime) (upper : Py.str → Py.str)
    (sp : Z) (form : flight_form) (now : datetime) (db : DB) :
  form_flight_number form = None
  ∨ (∃ fn, form_flight_number form = Some fn ∧ gti_prefixed fn)
    ∧ form_departure_time form ≫= fromisoformat = None →
  add_flight_log fromisoformat upper (Some sp) POST form now db
  = (RenderAddFlightLog (Some FlightLogError), db).
Proof.
  intros H. unfold add_flight_log.
  assert (Ht : ∀ pilot,
    try_add_flight_log fromisoformat upper pilot form now = Raised).
  { intros pilot. unfold try_add_flight_log.
    destruct H as [-> | [(fn & -> & Hok) Hmiss]]; [done |].
    apply gti_prefixed_check in Hok. rewrite Hok.
    by rewrite Hmiss. }
  by rewrite Ht.
Qed.

Lemma add_flight_log_incomplete_form_witness :
  add_flight_log sample_fromisoformat sample_upper (Some 1) POST
    (mk_form (Some (Py.lit "GTI_42")) (Some (Py.lit "747-8F"))
       (Some (Py.lit "KJFK")) (Some (Py.lit "EGLL"))
       (Some (Py.lit "Humanitarian Aid")) (Some (Py.lit "yesterday")))
    5 sample_db
  = (RenderAddFlightLog (Some FlightLogError), sample_db).
Proof.
  apply (add_flight_log_incomplete_form sample_fromisoformat sample_upper).
  right. split.
  - exists (Py.lit "GTI_42"). split; [reflexivity |].
    split; vm_compute; [reflexivity | discriminate].
  - vm_compute. reflexivity.
Defined.

(** X10: after a successful creation the tracker page of the new log is
    rendered for its creator, with the log as created (in progress, no
    duration, not completed); any other pilot in session is turned away
    from it with the unauthorized flash. *)
Theorem create_then_tracker (fromisoformat : Py.str → option datetime)
    (upper : Py.str → Py.str) (sp : Z) (pilot : Pilot.t)
    (form : flight_form) (now : datetime) (db db' : DB) (new_id : Z) :
  pilots db !! sp = Some pilot →
  add_flight_log fromisoformat upper (Some sp) POST form now db
  = (Redirect (ep_flight_tracker new_id) (Some FlightLogCreated), db') →
  (∃ new_log,
     flight_tracker (Some sp) new_id db' = TrackerRender pilot new_log
     ∧ FlightLog.pilot_id new_log = sp
     ∧ FlightLog.status new_log = InProgress
     ∧ FlightLog.flight_duration new_log = 0
     ∧ FlightLog.completed_at new_log = None
     ∧ FlightLog.created_at new_log = now
     ∧ form_flight_number form = Some (FlightLog.flight_number new_log))
  ∧ (∀ other, other ≠ sp → is_Some (pilots db !! other) →
       flight_tracker (Some other) new_id db' = TrackerUnauthorized).
Proof.
  intros Hp. unfold add_flight_log. rewrite Hp.
  cbn [fmap option_fmap option_map].
  destruct (try_add_flight_log fromisoformat upper (Some (sp, pilot)) form
              now) as [| | new_log] eqn:Et; try done.
  intros [= <- <-].
  pose proof (try_add_flight_log_Created _ _ _ _ _ _ Et)
    as (Hs & Hc & Hd & Hfn & _).
  assert (Ho : FlightLog.pilot_id new_log = sp
               ∧ FlightLog.created_at new_log = now).
  { unfold try_add_flight_log in Et.
    repeat case_match; try done. by injection Et as <-. }
  destruct Ho as [Ho Hn].
  unfold flight_tracker. cbn [put_flight_log flight_logs pilots].
  rewrite lookup_insert_eq. split.
  - exists new_log. rewrite Hp, Ho, Z.eqb_refl. by repeat split.
  - intros other Hne [pilot' Hp']. rewrite Hp', Ho.
    by destruct (Z.eqb_spec sp other).
Qed.

Lemma create_then_tracker_witness :
  (∃ new_log,
     flight_tracker (Some 1) 1 sample_db_flying
     = TrackerRender sample_pilot new_log
     ∧ FlightLog.pilot_id new_log = 1
     ∧ FlightLog.status new_log = InProgress
     ∧ FlightLog.flight_duration new_log = 0
     ∧ FlightLog.completed_at new_log = None
     ∧ FlightLog.created_at new_log = 5
     ∧ form_flight_number (sample_form "GTI_42")
       = Some (FlightLog.flight_number new_log))
  ∧ (∀ other, other ≠ 1 → is_Some (pilots sample_db !! other) →
       flight_tracker (Some other) 1 sample_db_flying = TrackerUnauthorized).
Proof.
  apply (create_then_tracker sample_fromisoformat sample_upper 1
           sample_pilot (sample_form "GTI_42") 5 sample_db
           sample_db_flying 1).
  - vm_compute. reflexivity.
  - vm_compute. reflexivity.
Defined.

(** *** Pause, resume and end, one after the other *)

Lemma set_status_set_status (a b : flight_status) (l : FlightLog.t) :
  FlightLog.set_status a (FlightLog.set_status b l)
  = FlightLog.set_status a l.
Proof. reflexivity. Qed.

Lemma set_status_same (l : FlightLog.t) :
  FlightLog.set_status (FlightLog.status l) l = l.
Proof. by destruct l. Qed.

Lemma put_flight_log_twice (k : Z) (l1 l2 : FlightLog.t) (db : DB) :
  put_flight_log k l2 (put_flight_log k l1 db) = put_flight_log k l2 db.
Proof.
  unfold put_flight_log. cbn. by rewrite insert_insert_eq.
Qed.

Lemma put_flight_log_same (k : Z) (l : FlightLog.t) (db : DB) :
  flight_logs db !! k = Some l → put_flight_log k l db = db.
Proof.
  intros Hl. destruct db as [ps ls]. unfold put_flight_log. cbn in *.
  by rewrite insert_id.
Qed.

(** X11: for the owner of a log the last of pause and resume wins: a
    resume after a pause gives the database a resume alone gives, a pause
    after a resume the one a pause alone gives, and a second pause changes
    nothing; so pausing and resuming a log that is in progress restores
    the database exactly. *)
Theorem pause_resume_compose (sp log_id : Z) (db : DB) (l : FlightLog.t) :
  flight_logs db !! log_id = Some l →
  FlightLog.pilot_id l = sp →
  snd (resume_flight (Some sp) log_id
         (snd (pause_flight (Some sp) log_id db)))
  = snd (resume_flight (Some sp) log_id db)
  ∧ snd (pause_flight (Some sp) log_id
           (snd (resume_flight (Some sp) log_id db)))
    = snd (pause_flight (Some sp) log_id db)
  ∧ snd (pause_flight (Some sp) log_id
           (snd (pause_flight (Some sp) log_id db)))
    = snd (pause_flight (Some sp) log_id db)
  ∧ (FlightLog.status l = InProgress →
     snd (resume_flight (Some sp) log_id
            (snd (pause_flight (Some sp) log_id db))) = db).
Proof.
  intros Hl Ho.
  rewrite (pause_flight_authorized sp log_id db l) by done.
  rewrite (resume_flight_authorized sp log_id db l) by done.
  cbn [snd].
  rewrite (resume_flight_authorized sp log_id _
             (FlightLog.set_status Paused l))
    by (try apply lookup_insert_eq; done).
  rewrite (pause_flight_authorized sp log_id
             (put_flight_log log_id (FlightLog.set_status InProgress l) db)
             (FlightLog.set_status InProgress l))
    by (try apply lookup_insert_eq; done).
  rewrite (pause_flight_authorized sp log_id
             (put_flight_log log_id (FlightLog.set_status Paused l) db)
             (FlightLog.set_status Paused l))
    by (try apply lookup_insert_eq; done).
  cbn [snd]. rewrite !put_flight_log_twice, !set_status_set_status.
  repeat split; try done.
  intros Hs. rewrite <- Hs, set_status_same. by apply put_flight_log_same.
Qed.

Lemma pause_resume_compose_witness :
  snd (resume_flight (Some 1) 1
         (snd (pause_flight (Some 1) 1 sample_db_flying)))
  = snd (resume_flight (Some 1) 1 sample_db_flying)
  ∧ snd (pause_flight (Some 1) 1
           (snd (resume_flight (Some 1) 1 sample_db_flying)))
    = snd (pause_flight (Some 1) 1 sample_db_flying)
  ∧ snd (pause_flight (Some 1) 1
           (snd (pause_flight (Some 1) 1 sample_db_flying)))
    = snd (pause_flight (Some 1) 1 sample_db_flying)
  ∧ (FlightLog.status (sample_log "GTI_42" 5) = InProgress →
     snd (resume_flight (Some 1) 1
            (snd (pause_flight (Some 1) 1 sample_db_flying)))
     = sample_db_flying).
Proof.
  apply (pause_resume_compose 1 1 sample_db_flying (sample_log "GTI_42" 5)).
  - vm_compute. reflexivity.
  - reflexivity.
Defined.

(** X12: for every integer duration [d] with [|d| < 2^53] an authorized
    [end] whose new totals fit the integer columns succeeds and adds to the
    stored hours the quotient of [d] by 3600 truncated toward zero: a
    negative duration takes hours away, and a duration between -3600 and
    3600 adds none, while the flight is still counted and rewarded and the
    log stored as completed. *)
Theorem end_flight_truncates (sp log_id d : Z) (now : datetime) (db : DB)
    (pilot : Pilot.t) (l : FlightLog.t) :
  pilots db !! sp = Some pilot →
  flight_logs db !! log_id = Some l →
  FlightLog.pilot_id l = sp →
  - 2 ^ 53 < d < 2 ^ 53 →
  pilot_fits (rewarded_pilot (Z.quot d 3600) pilot) = true →
  end_flight (Some sp) log_id (Some d) now db
  = (Json 200 (FlightCompleted (Z.quot d 3600) 50 50),
     put_pilot sp (rewarded_pilot (Z.quot d 3600) pilot)
       (put_flight_log log_id (ended_log d now l) db))
  ∧ (∃ pilot',
       pilots (snd (end_flight (Some sp) log_id (Some d) now db)) !! sp
       = Some pilot'
       ∧ Pilot.hours pilot' = Pilot.hours pilot + Z.quot d 3600
       ∧ Pilot.completed_flights pilot' = Pilot.completed_flights pilot + 1
       ∧ Pilot.cargo_delivered pilot' = Pilot.cargo_delivered pilot + 50
       ∧ Pilot.balance pilot' = Pilot.balance pilot + 50)
  ∧ (∃ l',
       flight_logs (snd (end_flight (Some sp) log_id (Some d) now db))
         !! log_id = Some l'
       ∧ FlightLog.status l' = Completed
       ∧ FlightLog.flight_duration l' = d
       ∧ FlightLog.completed_at l' = Some now)
  ∧ (d < 0 → Z.quot d 3600 = - ((- d) / 3600))
  ∧ (- 3600 < d < 3600 → Z.quot d 3600 = 0).
Proof.
  intros Hp Hl Ho Hd Hfit.
  assert (E : end_flight (Some sp) log_id (Some d) now db
    = (Json 200 (FlightCompleted (Z.quot d 3600) 50 50),
       put_pilot sp (rewarded_pilot (Z.quot d 3600) pilot)
         (put_flight_log log_id (ended_log d now l) db))).
  { apply (end_flight_authorized sp log_id (Some d)); try done.
    - by apply int_flight_hours_quot.
    - cbn [default]. by rewrite Hfit, fits_column_53. }
  split; [exact E |]. rewrite E.
  cbn [snd put_pilot put_flight_log pilots flight_logs].
  split; [| split; [| split]].
  - eexists. split; [apply lookup_insert_eq | done].
  - eexists. split; [apply lookup_insert_eq | done].
  - intros Hneg. rewrite <- (Z.opp_involutive d) at 1.
    rewrite Z.quot_opp_l by lia. by rewrite Z.quot_div_nonneg by lia.
  - intros Hs. apply Z.quot_small_iff; lia.
Qed.

(** The seeded pilot ends a flight with a duration of -5399 seconds: one
    hour is taken from the stored hours. *)
Lemma end_flight_truncates_witness :
  ∃ pilot',
    pilots (snd (end_flight (Some 1) 1 (Some (-5399)) 3605
                   sample_db_flying)) !! 1 = Some pilot'
    ∧ Pilot.hours pilot' = Pilot.hours sample_pilot + Z.quot (-5399) 3600
    ∧ Z.quot (-5399) 3600 = -1.
Proof.
  destruct (end_flight_truncates 1 1 (-5399) 3605 sample_db_flying
              sample_pilot (sample_log "GTI_42" 5)
              ltac:(vm_compute; reflexivity) ltac:(vm_compute; reflexivity)
              ltac:(reflexivity) ltac:(split; vm_compute; reflexivity)
              ltac:(vm_compute; reflexivity))
    as (_ & (pilot' & Hrow & Hh & _) & _).
  exists pilot'. split; [exact Hrow |]. split; [exact Hh |].
  vm_compute. reflexivity.
Defined.

(** X13: a second authorized [end] that is committed overwrites what the
    first recorded on the log: after both, the stored log carries the
    duration and the completion time of the second call only.  Both calls
    are taken to commit: the durations and the new totals fit the integer
    columns. *)
Theorem end_flight_overwrites (sp log_id : Z) (d1 d2 : option Z)
    (now1 now2 : datetime) (db : DB) (pilot : Pilot.t) (l : FlightLog.t)
    (h1 h2 : Z) :
  pilots db !! sp = Some pilot →
  flight_logs db !! log_id = Some l →
  FlightLog.pilot_id l = sp →
  int_flight_hours (default 0 d1) = Some h1 →
  int_flight_hours (default 0 d2) = Some h2 →
  fits_column (default 0 d1) && pilot_fits (rewarded_pilot h1 pilot)
  = true →
  fits_column (default 0 d2)
  && pilot_fits (rewarded_pilot h2 (rewarded_pilot h1 pilot)) = true →
  flight_logs
    (snd (end_flight (Some sp) log_id d2 now2
            (snd (end_flight (Some sp) log_id d1 now1 db)))) !! log_id
  = Some (ended_log (default 0 d2) now2 l).
Proof.
  intros Hp Hl Ho H1 H2 F1 F2.
  rewrite (end_flight_authorized sp log_id d1 now1 db pilot l h1) by done.
  cbn [snd].
  rewrite (end_flight_authorized sp log_id d2 now2 _
             (rewarded_pilot h1 pilot) (ended_log (default 0 d1) now1 l) h2)
    by (try apply lookup_insert_eq; done).
  cbn [snd put_pilot put_flight_log flight_logs].
  by rewrite lookup_insert_eq.
Qed.

Lemma end_flight_overwrites_witness :
  flight_logs
    (snd (end_flight (Some 1) 1 (Some 60) 3700
            (snd (end_flight (Some 1) 1 (Some 3600) 3605
                    sample_db_flying)))) !! 1
  = Some (ended_log (default 0 (Some 60)) 3700 (sample_log "GTI_42" 5)).
Proof.
  apply (end_flight_overwrites 1 1 (Some 3600) (Some 60) 3605 3700
           sample_db_flying sample_pilot (sample_log "GTI_42" 5) 1 0).
  - vm_compute. reflexivity.
  - vm_compute. reflexivity.
  - reflexivity.
  - vm_compute. reflexivity.
  - vm_compute. reflexivity.
  - vm_compute. reflexivity.
  - vm_compute. reflexivity.
Defined.

(** *** What holds over every run *)

(** A request leaves the pilot table as it was, or writes one row: the
    reward of an ended flight, or the price and the id of a purchase. *)
Lemma handle_pilots (fromisoformat : Py.str → option datetime)
    (upper : Py.str → Py.str) (r : request) (db : DB) :
  pilots (snd (handle fromisoformat upper r db)) = pilots db
  ∨ (∃ sp p h, pilots db !! sp = Some p
               ∧ pilots (snd (handle fromisoformat upper r db))
                 = <[sp := rewarded_pilot h p]> (pilots db))
  ∨ (∃ sp p id price, pilots db !! sp = Some p
                      ∧ 0 < price <= Pilot.balance p
                      ∧ pilots (snd (handle fromisoformat upper r db))
                        = <[sp := Pilot.add_aircraft id
                                    (Pilot.set_balance
                                       (Pilot.balance p - price) p)]>
                            (pilots db)).
Proof.
  destruct r as [s m form now | s k | s k | s k duration now | s id];
    cbn [handle].
  - left.
    apply (add_flight_log_frame fromisoformat upper
             (clear_invalid_sessions db s) m form now db).
  - left.
    by destruct (pause_flight_effect (clear_invalid_sessions db s) k db)
      as [-> | (l & _ & _ & ->)].
  - left.
    by destruct (resume_flight_effect (clear_invalid_sessions db s) k db)
      as [-> | (l & _ & _ & ->)].
  - destruct (end_flight_effect (clear_invalid_sessions db s) k duration now
                db)
      as [-> | (l & pilot & h & _ & Hp & _ & _ & ->)]; [by left |].
    right; left. by exists (FlightLog.pilot_id l), pilot, h.
  - destruct (purchase_effect (clear_invalid_sessions db s) id db)
      as [-> | (sp & pilot & item & _ & Hp & Hin & _ & _ & Hle & ->)];
      [by left |].
    right; right. exists sp, pilot, id, (item_price item).
    pose proof catalog_prices_positive as Hpos.
    rewrite Forall_forall in Hpos. specialize (Hpos item Hin).
    by repeat split.
Qed.

Lemma same_identity_refl (p : Pilot.t) : same_identity p p.
Proof. by repeat split. Qed.

Lemma same_identity_trans (p1 p2 p3 : Pilot.t) :
  same_identity p1 p2 → same_identity p2 p3 → same_identity p1 p3.
Proof.
  unfold same_identity. intros (?&?&?&?&?&?&?) (?&?&?&?&?&?&?).
  repeat split; congruence.
Qed.

Lemma add_aircraft_identity (id : Py.str) (p : Pilot.t) :
  same_identity p (Pilot.add_aircraft id p).
Proof. unfold Pilot.add_aircraft. case_match; by repeat split. Qed.

(** X14: over every sequence of create, pause, resume, end and purchase
    requests no pilot row appears or disappears, and for every pilot the
    completed flights never decrease, the cargo delivered grows by exactly
    50 per completed flight, the balance grows by at most 50 per completed
    flight, and the user name, password hash, name, callsign, rank, status
    and creation time stay as they were. *)
Theorem run_ledger (fromisoformat : Py.str → option datetime)
    (upper : Py.str → Py.str) (rs : list request) (db : DB) (pid : Z)
    (p : Pilot.t) :
  pilots db !! pid = Some p →
  (∃ p', pilots (run fromisoformat upper rs db) !! pid = Some p'
         ∧ Pilot.completed_flights p <= Pilot.completed_flights p'
         ∧ Pilot.cargo_delivered p' - Pilot.cargo_delivered p
           = 50 * (Pilot.completed_flights p' - Pilot.completed_flights p)
         ∧ Pilot.balance p' - Pilot.balance p
           <= 50 * (Pilot.completed_flights p' - Pilot.completed_flights p)
         ∧ same_identity p p')
  ∧ (∀ q, pilots db !! q = None →
          pilots (run fromisoformat upper rs db) !! q = None).
Proof.
  revert db p. induction rs as [| r rs IH]; intros db p Hp.
  - split; [| done]. exists p. simpl. split; [done |].
    split; [lia |]. split; [lia |]. split; [lia | apply same_identity_refl].
  - cbn [run].
    destruct (handle_pilots fromisoformat upper r db)
      as [E | [(sp & p0 & h & Hp0 & E)
             | (sp & p0 & id & price & Hp0 & Hprice & E)]].
    + destruct (IH (snd (handle fromisoformat upper r db)) p)
        as [Hsome Hnone]; [by rewrite E |].
      split; [done |]. intros q Hq. apply Hnone. by rewrite E.
    + destruct (decide (sp = pid)) as [-> | Hne].
      * rewrite Hp in Hp0. injection Hp0 as <-.
        destruct (IH (snd (handle fromisoformat upper r db))
                    (rewarded_pilot h p))
          as [(p' & Hp' & Hf & Hc & Hb & Hi) Hnone];
          [rewrite E; apply lookup_insert_eq |].
        cbn in Hf, Hc, Hb. split.
        -- exists p'. split; [done |]. split; [lia |]. split; [lia |].
           split; [lia |].
           apply (same_identity_trans _ (rewarded_pilot h p)); [| done].
           by repeat split.
        -- intros q Hq. apply Hnone. rewrite E.
           rewrite lookup_insert_ne; [done | congruence].
      * destruct (IH (snd (handle fromisoformat upper r db)) p)
          as [Hsome Hnone]; [rewrite E; by rewrite lookup_insert_ne |].
        split; [done |]. intros q Hq. apply Hnone. rewrite E.
        rewrite lookup_insert_ne; [done | congruence].
    + set (p1 := Pilot.add_aircraft id
                   (Pilot.set_balance (Pilot.balance p0 - price) p0)) in *.
      destruct (add_aircraft_ledger id
                  (Pilot.set_balance (Pilot.balance p0 - price) p0))
        as (Hb1 & _ & Hf1 & Hc1).
      fold p1 in Hb1, Hf1, Hc1. cbn in Hb1, Hf1, Hc1.
      destruct (decide (sp = pid)) as [-> | Hne].
      * rewrite Hp in Hp0. injection Hp0 as <-.
        destruct (IH (snd (handle fromisoformat upper r db)) p1)
          as [(p' & Hp' & Hf & Hc & Hb & Hi) Hnone];
          [rewrite E; apply lookup_insert_eq |].
        split.
        -- exists p'. split; [done |]. split; [lia |]. split; [lia |].
           split; [lia |].
           apply (same_identity_trans _ p1); [| done].
           apply (same_identity_trans _
                    (Pilot.set_balance (Pilot.balance p - price) p));
             [by repeat split | apply add_aircraft_identity].
        -- intros q Hq. apply Hnone. rewrite E.
           rewrite lookup_insert_ne; [done | congruence].
      * destruct (IH (snd (handle fromisoformat upper r db)) p)
          as [Hsome Hnone]; [rewrite E; by rewrite lookup_insert_ne |].
        split; [done |]. intros q Hq. apply Hnone. rewrite E.
        rewrite lookup_insert_ne; [done | congruence].
Qed.

Lemma run_ledger_witness :
  (∃ p',
     pilots
       (run sample_fromisoformat sample_upper
          [ReqCreate (Some 1) POST (sample_form "GTI_42") 5;
           ReqPurchase (Some 1) (Py.lit "captain");
           ReqEnd (Some 1) 1 (Some 7200) 7205] sample_db) !! 1 = Some p'
     ∧ Pilot.completed_flights sample_pilot <= Pilot.completed_flights p'
     ∧ Pilot.cargo_delivered p' - Pilot.cargo_delivered sample_pilot
       = 50 * (Pilot.completed_flights p'
               - Pilot.completed_flights sample_pilot)
     ∧ Pilot.balance p' - Pilot.balance sample_pilot
       <= 50 * (Pilot.completed_flights p'
                - Pilot.completed_flights sample_pilot)
     ∧ same_identity sample_pilot p')
  ∧ (∀ q, pilots sample_db !! q = None →
          pilots
            (run sample_fromisoformat sample_upper
               [ReqCreate (Some 1) POST (sample_form "GTI_42") 5;
                ReqPurchase (Some 1) (Py.lit "captain");
                ReqEnd (Some 1) 1 (Some 7200) 7205] sample_db) !! q = None).
Proof.
  apply (run_ledger sample_fromisoformat sample_upper
           [ReqCreate (Some 1) POST (sample_form "GTI_42") 5;
            ReqPurchase (Some 1) (Py.lit "captain");
            ReqEnd (Some 1) 1 (Some 7200) 7205] sample_db 1 sample_pilot).
  vm_compute. reflexivity.
Defined.

Lemma same_flight_refl (l : FlightLog.t) : same_flight l l.
Proof. by repeat split. Qed.

Lemma same_flight_trans (l1 l2 l3 : FlightLog.t) :
  same_flight l1 l2 → same_flight l2 l3 → same_flight l1 l3.
Proof.
  unfold same_flight. intros (?&?&?&?&?&?&?&?) (?&?&?&?&?&?&?&?).
  repeat split; congruence.
Qed.

(** X15: a flight log, once stored, is never removed, and every later
    state holds it with the same owner, flight number, aircraft type,
    airports, cargo type, departure time and creation time; and a
    completion time, once set, is never cleared. *)
Theorem run_log_permanent (fromisoformat : Py.str → option datetime)
    (upper : Py.str → Py.str) (rs : list request) (db : DB) (k : Z)
    (l : FlightLog.t) :
  flight_logs db !! k = Some l →
  ∃ l', flight_logs (run fromisoformat upper rs db) !! k = Some l'
        ∧ same_flight l l'
        ∧ (FlightLog.completed_at l ≠ None →
           FlightLog.completed_at l' ≠ None).
Proof.
  revert db l. induction rs as [| r rs IH]; intros db l Hl.
  - exists l. simpl. split; [done |]. split; [apply same_flight_refl | done].
  - cbn [run].
    assert (Hstep : ∃ l1,
      flight_logs (snd (handle fromisoformat upper r db)) !! k = Some l1
      ∧ same_flight l l1
      ∧ (FlightLog.completed_at l ≠ None →
         FlightLog.completed_at l1 ≠ None)).
    { destruct (handle_logs fromisoformat upper r db)
        as [-> | [(nl & _ & _ & ->)
               | [(k' & l0 & st & _ & _ & Hl0 & ->)
                 | (k' & l0 & d & now & _ & Hl0 & ->)]]].
      - exists l. split; [done |]. split; [apply same_flight_refl | done].
      - exists l. split; [| split; [apply same_flight_refl | done]].
        rewrite lookup_insert_ne; [done |].
        intros <-. by rewrite next_id_fresh in Hl.
      - destruct (decide (k' = k)) as [-> | Hne].
        + rewrite Hl in Hl0. injection Hl0 as <-.
          exists (FlightLog.set_status st l).
          rewrite lookup_insert_eq. by repeat split.
        + exists l. rewrite lookup_insert_ne by done.
          split; [done |]. split; [apply same_flight_refl | done].
      - destruct (decide (k' = k)) as [-> | Hne].
        + rewrite Hl in Hl0. injection Hl0 as <-.
          exists (ended_log d now l).
          rewrite lookup_insert_eq. by repeat split.
        + exists l. rewrite lookup_insert_ne by done.
          split; [done |]. split; [apply same_flight_refl | done]. }
    destruct Hstep as (l1 & Hl1 & Hs1 & Hc1).
    destruct (IH _ l1 Hl1) as (l' & Hl' & Hs' & Hc').
    exists l'. split; [done |].
    split; [by apply (same_flight_trans _ l1) | auto].
Qed.

Lemma run_log_permanent_witness :
  ∃ l',
    flight_logs
      (run sample_fromisoformat sample_upper
         [ReqEnd (Some 1) 1 (Some 3600) 3605;
          ReqResume (Some 1) 1;
          ReqCreate (Some 2) POST (sample_form "GTI_7") 9000]
         sample_db_flying) !! 1 = Some l'
    ∧ same_flight (sample_log "GTI_42" 5) l'
    ∧ (FlightLog.completed_at (sample_log "GTI_42" 5) ≠ None →
       FlightLog.completed_at l' ≠ None).
Proof.
  apply (run_log_permanent sample_fromisoformat sample_upper
           [ReqEnd (Some 1) 1 (Some 3600) 3605;
            ReqResume (Some 1) 1;
            ReqCreate (Some 2) POST (sample_form "GTI_7") 9000]
           sample_db_flying 1 (sample_log "GTI_42" 5)).
  vm_compute. reflexivity.
Defined.

(** *** Failures and missing sessions *)



(** X17: a request whose session is empty, or names a pilot that does not
    exist, writes nothing: the pages (create, purchase) redirect to the
    login page and the flight API (pause, resume, end) answers 401. *)
Theorem handle_without_session (fromisoformat : Py.str → option datetime)
    (upper : Py.str → Py.str) (r : request) (db : DB) :
  clear_invalid_sessions db (request_session r) = None →
  handle fromisoformat upper r db
  = (match r with
     | ReqCreate _ _ _ _ | ReqPurchase _ _ => Redirect ep_login None
     | _ => Json 401 ErrorUnauthorized
     end, db).
Proof.
  intros Hs.
  destruct r; cbn [handle request_session] in *; by rewrite Hs.
Qed.

Lemma handle_without_session_witness :
  handle sample_fromisoformat sample_upper
    (ReqEnd (Some 7) 1 (Some 3600) 3605) sample_db_flying
  = (Json 401 ErrorUnauthorized, sample_db_flying).
Proof.
  apply (handle_without_session sample_fromisoformat sample_upper
           (ReqEnd (Some 7) 1 (Some 3600) 3605) sample_db_flying).
  vm_compute. reflexivity.
Defined.

(** *** The pilot API *)







(** *** The Discord sync *)


